(** * explainit: the tensor-to-visualisation pipeline of the frontend

    A shallow embedding of the three TypeScript sources

      - [frontend/src/components/AttentionViewer.tsx]
      - [frontend/src/components/HiddenStateExplorer.tsx]
      - [frontend/src/app/page.tsx]

    and the properties of the specification proved (or refuted) on it.

    Conventions of the embedding.

    - A JavaScript [number] is an IEEE double.  Two readings are used.
      [Js.number] keeps the special values ([Infinity], [-Infinity],
      [NaN]) and the rules by which they arise and propagate, and reads
      every finite value as a real number: it has no rounding, overflow or
      underflow, and serves where the property at hand does not depend on
      them.  [Binary64.double] is the binary64 format itself, with the
      operations of IEEE 754 rounded to nearest even; the norm of the
      hidden-state explorer is also given on it.
    - [undefined] is [None]; [a[i]] on an array is [Js.index], the
      optional chain [x?.[i]] is [Js.opt_index], [x ?? d] is [Js.nullish].
      An index is an integer ([Z]): a negative index reads [undefined],
      as in JavaScript.
    - A string is a sequence of 8-bit code units ([string]); [\s] and
      [trim] use the white-space code units below 256.
    - A function call completes normally or throws ([Js.Completion]).
      The sources are modules, hence strict code: writing or reading a
      name that no declaration binds throws a [ReferenceError]
      ([Js.unresolvable]).  This is what line 132 of AttentionViewer.tsx
      does ([constbgColor = ...], then [bgColor] at line 138), and what
      lines 129-151 of page.tsx do ([activeTab], [setActiveTab]).
    - A call [f(...xs)] passes one argument per element; an engine bounds
      the number of arguments and throws a [RangeError] beyond its bound
      ([Js.spread], [Js.Engine]).
    - [console.warn] is a list of emitted diagnostics, returned next to
      the completion of the component.
    - The JSX tree is kept up to its data: which block is rendered, the
      option lists of the selectors, the table cells, the chart
      coordinates.  Class names and the [toFixed] formatting of labels are
      left out. *)

From Stdlib Require Import Reals Lra Lia ZArith List Bool Arith String Ascii Sorted.
From Stdlib Require Floats.SpecFloat.
Import ListNotations.

Local Open Scope nat_scope.

(* ================================================================== *)
(** * JavaScript values                                                 *)
(* ================================================================== *)

Module Js.

(** ** Numbers *)

Inductive number : Type :=
| Num (r : R)
| Infinity
| NegInfinity
| NaN.

(** Sign of a real, as a [comparison] with 0. *)
Definition sgn (r : R) : comparison :=
  match total_order_T r 0 with
  | inleft (left _) => Lt
  | inleft (right _) => Eq
  | inright _ => Gt
  end.

Definition neg (x : number) : number :=
  match x with
  | Num r => Num (- r)
  | Infinity => NegInfinity
  | NegInfinity => Infinity
  | NaN => NaN
  end.

Definition add (x y : number) : number :=
  match x, y with
  | NaN, _ | _, NaN => NaN
  | Num a, Num b => Num (a + b)
  | Infinity, NegInfinity | NegInfinity, Infinity => NaN
  | Infinity, _ | _, Infinity => Infinity
  | NegInfinity, _ | _, NegInfinity => NegInfinity
  end.

Definition sub (x y : number) : number := add x (neg y).

(** An infinity ([pos] tells its sign) multiplied by a value of sign [s]. *)
Definition scale_inf (pos : bool) (s : comparison) : number :=
  match s with
  | Eq => NaN
  | Gt => if pos then Infinity else NegInfinity
  | Lt => if pos then NegInfinity else Infinity
  end.

Definition mul (x y : number) : number :=
  match x, y with
  | NaN, _ | _, NaN => NaN
  | Num a, Num b => Num (a * b)
  | Num a, Infinity | Infinity, Num a => scale_inf true (sgn a)
  | Num a, NegInfinity | NegInfinity, Num a => scale_inf false (sgn a)
  | Infinity, Infinity | NegInfinity, NegInfinity => Infinity
  | Infinity, NegInfinity | NegInfinity, Infinity => NegInfinity
  end.

(** [x / y].  A finite value divided by zero is infinite (or [NaN] for
    [0 / 0]); the zero is taken positive. *)
Definition div (x y : number) : number :=
  match x, y with
  | NaN, _ | _, NaN => NaN
  | Num a, Num b =>
      if Req_dec_T b 0 then scale_inf true (sgn a) else Num (a / b)
  | Num _, (Infinity | NegInfinity) => Num 0
  | Infinity, Num b =>
      match sgn b with Lt => NegInfinity | _ => Infinity end
  | NegInfinity, Num b =>
      match sgn b with Lt => Infinity | _ => NegInfinity end
  | _, _ => NaN
  end.

(** [Math.sqrt]. *)
Definition Math_sqrt (x : number) : number :=
  match x with
  | Num r => if Rlt_dec r 0 then NaN else Num (sqrt r)
  | Infinity => Infinity
  | _ => NaN
  end.

(** [x === y] on numbers: [NaN] equals nothing. *)
Definition strict_eq (x y : number) : bool :=
  match x, y with
  | Num a, Num b => if Req_dec_T a b then true else false
  | Infinity, Infinity | NegInfinity, NegInfinity => true
  | _, _ => false
  end.

Definition max2 (x y : number) : number :=
  match x, y with
  | NaN, _ | _, NaN => NaN
  | Infinity, _ | _, Infinity => Infinity
  | NegInfinity, z | z, NegInfinity => z
  | Num a, Num b => Num (Rmax a b)
  end.

Definition min2 (x y : number) : number :=
  match x, y with
  | NaN, _ | _, NaN => NaN
  | NegInfinity, _ | _, NegInfinity => NegInfinity
  | Infinity, z | z, Infinity => z
  | Num a, Num b => Num (Rmin a b)
  end.

(** [Math.max(...xs)] and [Math.min(...xs)]: [-Infinity] and [Infinity]
    on no argument, [NaN] as soon as one argument is [NaN]. *)
Definition Math_max (xs : list number) : number :=
  fold_right max2 NegInfinity xs.

Definition Math_min (xs : list number) : number :=
  fold_right min2 Infinity xs.

(** The length of an array, as a number. *)
Definition of_nat (n : nat) : number := Num (INR n).

(** ** Arrays and [undefined] *)

(** [a[i]]: [undefined] outside [0 <= i < a.length]. *)
Definition index {A : Type} (a : list A) (i : Z) : option A :=
  if (i <? 0)%Z then None else nth_error a (Z.to_nat i).

(** [x?.[i]]. *)
Definition opt_index {A : Type} (x : option (list A)) (i : Z) : option A :=
  match x with
  | Some a => index a i
  | None => None
  end.

(** [x?.length]. *)
Definition opt_length {A : Type} (x : option (list A)) : option nat :=
  option_map (@List.length A) x.

(** [x ?? d]. *)
Definition nullish {A : Type} (x : option A) (d : A) : A :=
  match x with
  | Some a => a
  | None => d
  end.

(** [a.flat()] on an array of arrays. *)
Definition flat {A : Type} (a : list (list A)) : list A := List.concat a.

(** [Array.from({length: n}, (_, i) => i)] and the indices that
    [a.map((x, i) => ...)] and [a.forEach((x, i) => ...)] visit. *)
Definition indices (n : nat) : list nat := seq 0 n.

(** [a.map((x, i) => f x i)]. *)
Definition mapi {A B : Type} (f : A -> nat -> B) (a : list A) : list B :=
  map (fun p => f (snd p) (fst p)) (combine (indices (List.length a)) a).

(** ** Completions *)

Inductive Exception : Type :=
| TypeError (message : string)
| Error (message : string)
| ReferenceError (message : string)
| RangeError (message : string).

Definition message_of (e : Exception) : string :=
  match e with
  | TypeError m | Error m | ReferenceError m | RangeError m => m
  end.

Inductive Completion (A : Type) : Type :=
| Normal (value : A)
| Throw (exn : Exception).

Arguments Normal {A} value.
Arguments Throw {A} exn.

Definition isNormal {A : Type} (c : Completion A) : bool :=
  match c with Normal _ => true | Throw _ => false end.

(** Sequencing: a throw ends what follows. *)
Definition bind {A B : Type} (c : Completion A) (k : A -> Completion B)
  : Completion B :=
  match c with
  | Normal a => k a
  | Throw e => Throw e
  end.

(** [a.map((x, i) => f x i)] with a callback that may throw: the
    elements are visited in order from index [i], and the first throw
    ends the loop. *)
Fixpoint mapM_from {A B : Type} (f : A -> nat -> Completion B)
  (a : list A) (i : nat) : Completion (list B) :=
  match a with
  | [] => Normal []
  | x :: a' =>
      bind (f x i) (fun y =>
      bind (mapM_from f a' (S i)) (fun ys =>
      Normal (y :: ys)))
  end.

Definition mapM_i {A B : Type} (f : A -> nat -> Completion B) (a : list A)
  : Completion (list B) :=
  mapM_from f a 0.

(** Writing to, or reading, a name that is bound nowhere, in strict
    code. *)
Definition unresolvable {A : Type} (name : string) : Completion A :=
  Throw (ReferenceError (name ++ " is not defined")).

(** What the JavaScript engine fixes: the number of arguments a call can
    take. *)
Record Engine : Type := {
  maxArguments : nat
}.

(** [f(...xs)]. *)
Definition spread {A : Type} (engine : Engine) (f : list number -> A)
  (xs : list number) : Completion A :=
  if maxArguments engine <? List.length xs
  then Throw (RangeError "Maximum call stack size exceeded")
  else Normal (f xs).

End Js.

(* ================================================================== *)
(** * Binary64 numbers                                                  *)
(* ================================================================== *)

(** The doubles of JavaScript, as the Standard Library specifies them:
    a signed zero, a signed infinity, one [NaN], or [(-1)^s * m * 2^e]
    with a mantissa of at most 53 bits.  Every operation rounds to
    nearest, ties to even. *)
Module Binary64.

Definition prec : Z := 53.
Definition emax : Z := 1024.

Definition double : Type := SpecFloat.spec_float.

Definition zero : double := SpecFloat.S754_zero false.

(** The double nearest to an integer (exact below [2^53]). *)
Definition of_Z (z : Z) : double :=
  SpecFloat.binary_normalize prec emax z 0 false.

Definition add (x y : double) : double := SpecFloat.SFadd prec emax x y.
Definition mul (x y : double) : double := SpecFloat.SFmul prec emax x y.
Definition Math_sqrt (x : double) : double := SpecFloat.SFsqrt prec emax x.

(** [x == y] and [x <= y]: both false on [NaN]. *)
Definition eqb (x y : double) : bool := SpecFloat.SFeqb x y.
Definition leb (x y : double) : bool := SpecFloat.SFleb x y.

Definition isNaN (x : double) : bool :=
  match x with SpecFloat.S754_nan => true | _ => false end.

(** The least exponent of a double, [-1074]. *)
Definition emin : Z := SpecFloat.emin prec emax.

(** A double above zero: a positive number, its exponent at or above the
    least one, or the positive infinity. *)
Definition above_zero (x : double) : Prop :=
  match x with
  | SpecFloat.S754_finite false _ e => (emin <= e)%Z
  | SpecFloat.S754_infinity false => True
  | _ => False
  end.

(** The double written [1e-200]: [6894565328877484 * 2^-717]. *)
Definition tiny : double :=
  SpecFloat.S754_finite false 6894565328877484 (-717).

End Binary64.

(* ================================================================== *)
(** * String operations of [simpleTokenize]                             *)
(* ================================================================== *)

Module Tokenizer.

(** [\s] on a code unit below 256: TAB, LF, VT, FF, CR, SPACE, NBSP. *)
Definition isWhiteSpace (c : ascii) : bool :=
  let n := nat_of_ascii c in
  ((9 <=? n) && (n <=? 13)) || (n =? 32) || (n =? 160).

(** The class [[.,;:!?]]. *)
Definition isPunct (c : ascii) : bool :=
  let n := nat_of_ascii c in
  (n =? 46) || (n =? 44) || (n =? 59) || (n =? 58) || (n =? 33) || (n =? 63).

Definition punct_at (str : string) (i : nat) : bool :=
  match String.get i str with
  | Some c => isPunct c
  | None => false
  end.

(** Length of the longest run of white space at the head of [s]. *)
Fixpoint span_ws (s : string) : nat :=
  match s with
  | String c s' => if isWhiteSpace c then S (span_ws s') else 0
  | EmptyString => 0
  end.

Definition suffix (str : string) (q : nat) : string :=
  substring q (String.length str - q) str.

(** The separator [/\s+|(?=[.,;:!?])|(?<=[.,;:!?])/] matched at position
    [q] exactly (as [split] does, sticky): the end of the match, the
    alternatives tried left to right. *)
Definition separator_exec (str : string) (q : nat) : option nat :=
  match span_ws (suffix str q) with
  | S k => Some (q + S k)
  | O =>
      if punct_at str q then Some q
      else if (0 <? q) && punct_at str (q - 1) then Some q
      else None
  end.

(** The loop of [RegExp.prototype[Symbol.split]] (no limit): [p] is the
    start of the piece being cut, [q] the position tried, [A] the pieces
    so far.  [None] is an exhausted [fuel]. *)
Fixpoint split_loop (fuel : nat) (str : string) (p q : nat) (A : list string)
  : option (list string) :=
  let size := String.length str in
  if size <=? q then Some (A ++ [substring p (size - p) str])
  else
    match fuel with
    | O => None
    | S fuel' =>
        match separator_exec str q with
        | None => split_loop fuel' str p (q + 1) A
        | Some e0 =>
            let e := Nat.min e0 size in
            if e =? p then split_loop fuel' str p (q + 1) A
            else split_loop fuel' str e e (A ++ [substring p (q - p) str])
        end
    end.

Definition split_fuel (str : string) : nat := 2 * String.length str + 1.

(** [S.split(separator)]. *)
Definition split (str : string) : list string :=
  if String.length str =? 0 then
    match separator_exec str 0 with Some _ => [] | None => [str] end
  else
    match split_loop (split_fuel str) str 0 0 [] with
    | Some A => A
    | None => []
    end.

Fixpoint dropWhile {A : Type} (f : A -> bool) (l : list A) : list A :=
  match l with
  | [] => []
  | x :: l' => if f x then dropWhile f l' else l
  end.

(** [s.trim()]. *)
Definition trim (s : string) : string :=
  let l := dropWhile isWhiteSpace (list_ascii_of_string s) in
  string_of_list_ascii (rev (dropWhile isWhiteSpace (rev l))).

(** [!text] on a string: only the empty string is falsy. *)
Definition falsy (text : string) : bool := String.length text =? 0.

(** The callback of [filter]: [token.trim() !== '']. *)
Definition nonblank (token : string) : bool :=
  negb (String.eqb (trim token) EmptyString).

End Tokenizer.

(* ================================================================== *)
(** * components/AttentionViewer.tsx                                    *)
(* ================================================================== *)

Module AttentionViewerTsx.
Import Js.

(** One head's scores: [SeqLen_Query -> SeqLen_Key]. *)
Definition Matrix : Type := list (list R).

Record AttentionViewerProps : Type := {
  attentionData : list (list Matrix);   (* Layers -> Heads -> matrix *)
  promptText : string
}.

(** The two [useState] cells. *)
Record State : Type := {
  selectedLayer : Z;
  selectedHead : Z
}.

Definition initialState : State :=
  {| selectedLayer := 0; selectedHead := 0 |}.

Definition simpleTokenize (text : string) : list string :=
  if Tokenizer.falsy text then []
  else filter Tokenizer.nonblank (Tokenizer.split text).

(** [newLayer] is [parseInt(event.target.value, 10)], the value of the
    option chosen. *)
Definition handleLayerChange (newLayer : Z) (st : State) : State :=
  {| selectedLayer := newLayer;
     selectedHead := 0 |}.

Definition handleHeadChange (newHead : Z) (st : State) : State :=
  {| selectedLayer := selectedLayer st;
     selectedHead := newHead |}.

Definition numLayers (props : AttentionViewerProps) : nat :=
  List.length (attentionData props).

(** [attentionData[selectedLayer]?.length || 0]. *)
Definition numHeads (props : AttentionViewerProps) (st : State) : nat :=
  match opt_length (index (attentionData props) (selectedLayer st)) with
  | Some n => n
  | None => 0
  end.

(** [attentionData[selectedLayer]?.[selectedHead]]. *)
Definition currentAttentionMatrix (props : AttentionViewerProps) (st : State)
  : option Matrix :=
  opt_index (index (attentionData props) (selectedLayer st)) (selectedHead st).

(** The arguments of the [console.warn] of lines 43-46. *)
Record Warning : Type := {
  warnTokens : nat;            (* displayTokens.length *)
  warnDim1 : option nat;       (* currentAttentionMatrix?.length *)
  warnDim2 : option nat        (* currentAttentionMatrix?.[0]?.length *)
}.

(** The condition of line 41. *)
Definition mismatch (cam : option Matrix) (displayTokens : list string) : bool :=
  match cam with
  | None => true
  | Some m =>
      (List.length m =? 0) || negb (List.length m =? List.length displayTokens)
  end.

Definition getNormalizedScore (score minScore maxScore : number) : number :=
  if strict_eq maxScore minScore then Num (1 / 2)
  else div (sub score minScore) (sub maxScore minScore).

(** Lines 60-65: [Math.min(...currentAttentionMatrix.flat())], then
    [Math.max(...currentAttentionMatrix.flat())]; the pair
    [(minScore, maxScore)]. *)
Definition scoreBounds (engine : Engine) (cam : option Matrix)
  : Completion (number * number) :=
  match cam with
  | Some m =>
      bind (spread engine Math_min (map Num (flat m))) (fun minScore =>
      bind (spread engine Math_max (map Num (flat m))) (fun maxScore =>
      Normal (minScore, maxScore)))
  | None => Normal (Num 0, Num 1)
  end.

Record Cell : Type := {
  row : nat;
  col : nat;
  score : number;
  normalizedScore : number
}.

(** [currentAttentionMatrix[i]?.[j] ?? 0]. *)
Definition scoreAt (m : Matrix) (i j : nat) : number :=
  Num (nullish (opt_index (index m (Z.of_nat i)) (Z.of_nat j)) 0%R).

(** The callback of the inner [displayTokens.map((keyToken, j) => ...)],
    lines 128-144.  Line 130 reads the score and line 131 scales it;
    line 132 then assigns to [constbgColor], and line 138 reads
    [bgColor]: no declaration binds either name. *)
Definition renderCell (m : Matrix) (minScore maxScore : number) (i j : nat)
  : Completion Cell :=
  let score := scoreAt m i j in
  let normalizedScore := getNormalizedScore score minScore maxScore in
  bind (@unresolvable unit "constbgColor") (fun _ =>
  bind (@unresolvable unit "bgColor") (fun _ =>
  Normal {| row := i; col := j;
            score := score;
            normalizedScore := normalizedScore |})).

Record Table : Type := {
  colHeaders : list (string * nat);               (* token (idx) *)
  rows : list (string * nat * list Cell)          (* queryToken (i), cells *)
}.

(** Lines 109-148: the header row, then the body row by row. *)
Definition renderTable (m : Matrix) (minScore maxScore : number)
  (displayTokens : list string) : Completion Table :=
  let header := mapi (fun token idx => (token, idx)) displayTokens in
  bind (mapM_i (fun queryToken i =>
                  bind (mapM_i (fun keyToken j =>
                                  renderCell m minScore maxScore i j)
                               displayTokens)
                       (fun cells => Normal (queryToken, i, cells)))
               displayTokens)
       (fun body => Normal {| colHeaders := header; rows := body |}).

Inductive View : Type :=
| Unavailable
    (* "Attention data is not available or is empty." *)
| Viewer (layerOptions : list nat) (headOptions : list nat)
         (placeholder : bool)
    (* "Select a layer/head to view attention, or prompt seems empty." *)
         (table : option Table).

(** The component: what it wrote to the console, and its completion. *)
Definition AttentionViewer (engine : Engine) (props : AttentionViewerProps)
  (st : State) : list Warning * Completion View :=
  let displayTokens := simpleTokenize (promptText props) in
  if List.length (attentionData props) =? 0 then ([], Normal Unavailable)
  else
    let cam := currentAttentionMatrix props st in
    let console :=
      if mismatch cam displayTokens then
        [ {| warnTokens := List.length displayTokens;
             warnDim1 := opt_length cam;
             warnDim2 := opt_length (opt_index cam 0) |} ]
      else [] in
    (console,
     bind (scoreBounds engine cam) (fun bounds =>
     let placeholder :=
       match cam with
       | None => true
       | Some _ => List.length displayTokens =? 0
       end in
     bind (match cam with
           | Some m =>
               if 0 <? List.length displayTokens
               then bind (renderTable m (fst bounds) (snd bounds) displayTokens)
                         (fun table => Normal (Some table))
               else Normal None
           | None => Normal None
           end)
          (fun table =>
     Normal (Viewer (indices (numLayers props)) (indices (numHeads props st))
                    placeholder table)))).

End AttentionViewerTsx.

(* ================================================================== *)
(** * components/HiddenStateExplorer.tsx                                *)
(* ================================================================== *)

Module HiddenStateExplorerTsx.
Import Js.

Record HiddenStateExplorerProps : Type := {
  hiddenStateData : list (list (list R));   (* Layers -> Tokens -> HiddenSize *)
  promptText : string
}.

Definition simpleTokenize (text : string) : list string :=
  if Tokenizer.falsy text then []
  else filter Tokenizer.nonblank (Tokenizer.split text).

(** [selectedTokenIndex : number | null]. *)
Definition State : Type := option Z.

(** [useState(displayTokens.length > 0 ? 0 : null)]. *)
Definition initialState (props : HiddenStateExplorerProps) : State :=
  if 0 <? List.length (simpleTokenize (promptText props))
  then Some 0%Z else None.

Definition handleTokenChange (value : Z) (st : State) : State := Some value.

Record LayerNormPoint : Type := {
  layer : nat;
  l2norm : number
}.

(** [Math.sqrt(vector.reduce((sum, val) => sum + val * val, 0))]. *)
Definition l2normOf (vector : list R) : number :=
  Math_sqrt
    (fold_left (fun sum val => add sum (mul (Num val) (Num val)))
               vector (Num 0)).

(** The callback of [hiddenStateData.forEach], pushing onto [chartData]. *)
Definition pushLayer (selectedTokenIndex : Z)
  (chartData : list LayerNormPoint) (entry : nat * list (list R))
  : list LayerNormPoint :=
  let (layerIndex, layerData) := entry in
  match index layerData selectedTokenIndex with
  | Some vector =>
      chartData ++ [ {| layer := layerIndex; l2norm := l2normOf vector |} ]
  | None => chartData
  end.

(** Lines 35-44. *)
Definition chartData (data : list (list (list R))) (st : State)
  : list LayerNormPoint :=
  match st with
  | Some selectedTokenIndex =>
      if 0 <? List.length data then
        fold_left (pushLayer selectedTokenIndex)
                  (combine (indices (List.length data)) data) []
      else []
  | None => []
  end.

Definition svgWidth : number := Num 500.
Definition svgHeight : number := Num 300.
Definition padding : number := Num 50.
Definition chartWidth : number := sub svgWidth (mul (Num 2) padding).
Definition chartHeight : number := sub svgHeight (mul (Num 2) padding).

Definition maxL2Norm (cd : list LayerNormPoint) : number :=
  if 0 <? List.length cd then Math_max (map l2norm cd) else Num 0.

Definition minL2Norm (cd : list LayerNormPoint) : number :=
  if 0 <? List.length cd then Math_min (map l2norm cd) else Num 0.

(** [getX]; [numLayers] is [hiddenStateData.length]. *)
Definition getX (numLayers : nat) (layerIndex : number) : number :=
  add padding
      (mul (div layerIndex
                (Math_max [Num 1; sub (of_nat numLayers) (Num 1)]))
           chartWidth).

(** [getY]; [lo] and [hi] are [minL2Norm] and [maxL2Norm]. *)
Definition getY (lo hi : number) (l2norm : number) : number :=
  sub (add padding chartHeight)
      (mul (div (sub l2norm lo) (Math_max [Num 1; sub hi lo]))
           chartHeight).

Inductive PathCommand : Type := MoveTo | LineTo.

Record Chart : Type := {
  xTicks : list (nat * number);                (* L{layerIndex}, x *)
  yTicks : list (number * number);             (* val, y *)
  path : list (PathCommand * number * number); (* the data path *)
  circles : list (nat * number * number)       (* d.layer, cx, cy *)
}.

Definition renderChart (numLayers : nat) (cd : list LayerNormPoint) : Chart :=
  let lo := minL2Norm cd in
  let hi := maxL2Norm cd in
  {| xTicks := map (fun layerIndex =>
                      (layerIndex, getX numLayers (of_nat layerIndex)))
                   (indices numLayers);
     yTicks := map (fun val => (val, getY lo hi val))
                   [lo; div (add lo hi) (Num 2); hi];
     path := mapi (fun d i =>
                     (if i =? 0 then MoveTo else LineTo,
                      getX numLayers (of_nat (layer d)),
                      getY lo hi (l2norm d)))
                  cd;
     circles := map (fun d =>
                       (layer d,
                        getX numLayers (of_nat (layer d)),
                        getY lo hi (of_nat (layer d))))   (* cy={getY(d.layer)} *)
                    cd |}.

(** The template string of the [console.warn] of lines 24-28, by its two
    interpolated lengths. *)
Record Warning : Type := {
  warnTokenCount : nat;
  warnTokenDimension : nat
}.

Inductive View : Type :=
| Unavailable
    (* "Hidden state data is not available or is empty." *)
| Explorer (tokenOptions : list (string * nat))
           (pleaseSelect : bool)
    (* "Please select a token to view ..." *)
           (chart : option Chart)
           (noData : bool).
    (* "No hidden state data available for the selected token/layer ..." *)

Definition HiddenStateExplorer (props : HiddenStateExplorerProps) (st : State)
  : Completion (View * list Warning) :=
  let data := hiddenStateData props in
  let displayTokens := simpleTokenize (promptText props) in
  if List.length data =? 0 then Normal (Unavailable, [])
  else
    let console :=
      match index data 0 with
      | Some layer0 =>
          if (0 <? List.length displayTokens)
             && negb (List.length displayTokens =? List.length layer0)
          then [ {| warnTokenCount := List.length displayTokens;
                    warnTokenDimension := List.length layer0 |} ]
          else []
      | None => []
      end in
    let cd := chartData data st in
    let selected := match st with Some _ => true | None => false end in
    Normal (Explorer (mapi (fun token idx => (token, idx)) displayTokens)
                     (negb selected)
                     (if (0 <? List.length cd) && selected
                      then Some (renderChart (List.length data) cd)
                      else None)
                     ((List.length cd =? 0) && selected),
            console).

(** Line 40 on doubles, operation for operation:
    [Math.sqrt(vector.reduce((sum, val) => sum + val * val, 0))]. *)
Definition l2norm64 (vector : list Binary64.double) : Binary64.double :=
  Binary64.Math_sqrt
    (fold_left (fun sum val => Binary64.add sum (Binary64.mul val val))
               vector Binary64.zero).

End HiddenStateExplorerTsx.

(* ================================================================== *)
(** * app/page.tsx                                                      *)
(* ================================================================== *)

Module PageTsx.
Import Js.

Record AnalysisData : Type := {
  generated_text : string;
  processed_attentions : list (list (list (list R)));
  processed_hidden_states : list (list (list R));
  model_used_for_testing : option string
}.

(** The [useState] cells of [Home]. *)
Record State : Type := {
  prompt : string;
  modelName : string;
  results : option AnalysisData;
  isLoading : bool;
  error : option string
}.

Definition initialState : State :=
  {| prompt := EmptyString; modelName := "meta-llama/Meta-Llama-3-8B-Instruct";
     results := None; isLoading := false; error := None |}.

(** The body of the POST. *)
Record Request : Type := {
  req_prompt : string;
  req_model_name : string
}.

(** What [errorData.detail] is to line 39, which only tests it and hands
    it to [new Error]. *)
Inductive Detail : Type :=
| Absent                    (* no [detail]: [undefined] *)
| Falsy                     (* [null], [false], [0], the empty string *)
| Truthy (text : string).   (* any other value; [text] is [String(detail)],
                               which is empty for the array [[]] *)

(** The parsed body of a response that is not ok. *)
Inductive ErrorBody : Type :=
| NullBody                  (* the JSON [null] *)
| Body (detail : Detail).   (* any other JSON value *)

(** What [fetch] settles with.  [json] is the completion of
    [await response.json()]. *)
Inductive Response : Type :=
| OkResponse (json : Completion AnalysisData)
| ErrorResponse (status statusText : string)
                (json : Completion ErrorBody).

Inductive FetchOutcome : Type :=
| Rejected (reason : Exception)
| Fulfilled (response : Response).

(** [a || b] on strings that may be [undefined]. *)
Definition or_else (a : option string) (b : string) : string :=
  match a with
  | Some s => if Tokenizer.falsy s then b else s
  | None => b
  end.

(** [handleSubmit] up to the first [await]: lines 23-35. *)
Definition handleSubmit_begin (st : State) : State * Request :=
  ({| prompt := prompt st; modelName := modelName st;
      results := None; isLoading := true; error := None |},
   {| req_prompt := prompt st; req_model_name := modelName st |}).

(** The [try] block after [fetch] has settled: lines 37-42. *)
Definition handleSubmit_try (o : FetchOutcome) : Completion AnalysisData :=
  match o with
  | Rejected reason => Throw reason
  | Fulfilled (ErrorResponse status statusText json) =>
      match json with
      | Normal NullBody =>
          Throw (TypeError "Cannot read properties of null (reading 'detail')")
      | Normal (Body detail) =>
          Throw (Error
                   match detail with
                   | Truthy text => text
                   | Absent | Falsy =>
                       "HTTP error! status: " ++ status ++ " " ++ statusText
                   end)
      | Throw e => Throw e
      end
  | Fulfilled (OkResponse json) => json
  end.

(** [handleSubmit] from the settled [fetch] on: lines 37-49, with the
    [catch] and the [finally]. *)
Definition handleSubmit_resume (o : FetchOutcome) (st : State) : State :=
  match handleSubmit_try o with
  | Normal data =>
      {| prompt := prompt st; modelName := modelName st;
         results := Some data; isLoading := false; error := error st |}
  | Throw e =>
      {| prompt := prompt st; modelName := modelName st;
         results := None; isLoading := false;
         error := Some (or_else (Some (message_of e))
                   "Failed to fetch analysis. Ensure the backend server is running.") |}
  end.

(** [disabled={isLoading}] on the submit button (and on both inputs). *)
Definition submitDisabled (st : State) : bool := isLoading st.

(** The data a request settled with, if it settled with data. *)
Definition dataOf (o : FetchOutcome) : option AnalysisData :=
  match handleSubmit_try o with
  | Normal data => Some data
  | Throw _ => None
  end.

End PageTsx.

(* ================================================================== *)
(** * app/page.tsx: the results section                                 *)
(* ================================================================== *)

(** The results section of [Home], lines 105-167 of page.tsx.
    [resultsSection] tells which blocks the conditions of lines 107, 108,
    113 and 162 select; [Home] is the render. *)
Module HomeTsx.
Import Js PageTsx.

(** [error] as a condition: [null] and the empty string are falsy. *)
Definition errorShown (st : State) : option string :=
  match error st with
  | Some message => if Tokenizer.falsy message then None else Some message
  | None => None
  end.

Record ResultsSection : Type := {
  analyzing : bool;                     (* "Analyzing, please wait..." *)
  alert : option string;                (* the error banner *)
  analysis : option AnalysisData;       (* the output card and the tabs *)
  placeholder : bool                    (* "Analysis results will appear here ..." *)
}.

Definition resultsSection (st : State) : ResultsSection :=
  let noError := match errorShown st with Some _ => false | None => true end in
  {| analyzing := isLoading st;
     alert := errorShown st;
     analysis := if negb (isLoading st) && noError then results st else None;
     placeholder :=
       negb (isLoading st) && noError
       && match results st with Some _ => false | None => true end |}.

(** The number of blocks rendered. *)
Definition blocksShown (v : ResultsSection) : nat :=
  (if analyzing v then 1 else 0)
  + (match alert v with Some _ => 1 | None => 0 end)
  + (match analysis v with Some _ => 1 | None => 0 end)
  + (if placeholder v then 1 else 0).

(** The render.  The analysis block, once selected, evaluates
    [activeTab === 'attention'] at line 129: no declaration binds
    [activeTab]. *)
Definition Home (st : State) : Completion ResultsSection :=
  match analysis (resultsSection st) with
  | Some _ => unresolvable "activeTab"
  | None => Normal (resultsSection st)
  end.

End HomeTsx.

(* ================================================================== *)
(** * app/page.tsx: the page and its requests in flight                 *)
(* ================================================================== *)

(** [handleSubmit] is suspended at its [await] while the page goes on
    handling events.  A [World] is the page state with the requests that
    were issued: [issued] counts them (request [n] is the [n]-th issued,
    from 0), [inflight] lists the ones not settled yet, [settled] logs how
    each one settled.  After every change of state the page is rendered;
    a render that throws unmounts the page ([mounted] becomes false):
    from then on there is no form to submit, and the state is no longer
    updated. *)
Module PageEvents.
Import Js PageTsx HomeTsx.

Record World : Type := {
  page : State;
  mounted : bool;
  issued : nat;
  inflight : list nat;
  settled : list (nat * FetchOutcome)
}.

Definition initialWorld : World :=
  {| page := initialState; mounted := true;
     issued := 0; inflight := []; settled := [] |}.

Inductive Event : Type :=
| Submit                                  (* the form's submit event *)
| Settle (id : nat) (o : FetchOutcome).   (* the fetch of request [id] settles *)

Definition is_inflight (id : nat) (w : World) : bool :=
  existsb (Nat.eqb id) (inflight w).

(** The render of the page in state [st] returns. *)
Definition renders (st : State) : bool := isNormal (Home st).

Definition step (w : World) (ev : Event) : World :=
  match ev with
  | Submit =>
      if mounted w then
        let st := fst (handleSubmit_begin (page w)) in
        {| page := st;
           mounted := renders st;
           issued := S (issued w);
           inflight := inflight w ++ [issued w];
           settled := settled w |}
      else w
  | Settle id o =>
      if is_inflight id w then
        let st := if mounted w then handleSubmit_resume o (page w)
                  else page w in
        {| page := st;
           mounted := mounted w && renders st;
           issued := issued w;
           inflight := filter (fun i => negb (Nat.eqb id i)) (inflight w);
           settled := settled w ++ [(id, o)] |}
      else w
  end.

Definition run (trace : list Event) (w : World) : World :=
  fold_left step trace w.

(** A trace in which every submit event passes the gate of the form: the
    page is mounted and its submit button is enabled. *)
Fixpoint gated (w : World) (trace : list Event) : bool :=
  match trace with
  | [] => true
  | ev :: trace' =>
      match ev with
      | Submit => mounted w && negb (submitDisabled (page w))
      | Settle _ _ => true
      end && gated (step w ev) trace'
  end.

End PageEvents.

(* ================================================================== *)
(** * Sample inputs                                                     *)
(* ================================================================== *)

Module Samples.
Import Js.
Local Open Scope R_scope.

(** One layer, one head, two tokens. *)
Definition sharp : AttentionViewerTsx.AttentionViewerProps :=
  {| AttentionViewerTsx.attentionData := [[ [[1; 0]; [1 / 4; 3 / 4]] ]];
     AttentionViewerTsx.promptText := "a b" |}.

(** The matrix [[0.5, 0.5], [0.5, 0.5]]. *)
Definition uniform : AttentionViewerTsx.AttentionViewerProps :=
  {| AttentionViewerTsx.attentionData :=
       [[ [[1 / 2; 1 / 2]; [1 / 2; 1 / 2]] ]];
     AttentionViewerTsx.promptText := "a b" |}.

Definition quarters : list R := [1 / 4; 1 / 4; 1 / 4; 1 / 4].

(** Five display tokens against a tensor of sequence length four. *)
Definition five_on_four : AttentionViewerTsx.AttentionViewerProps :=
  {| AttentionViewerTsx.attentionData :=
       [[ [quarters; quarters; quarters; quarters] ]];
     AttentionViewerTsx.promptText := "a b c d e" |}.

(** A layer index equal to the number of layers. *)
Definition past_last_layer : AttentionViewerTsx.State :=
  {| AttentionViewerTsx.selectedLayer := 1;
     AttentionViewerTsx.selectedHead := 0 |}.


(** Three layers on which the token has the same norm, 5. *)
Definition level : HiddenStateExplorerTsx.HiddenStateExplorerProps :=
  {| HiddenStateExplorerTsx.hiddenStateData :=
       [ [[3; 4]]; [[4; 3]]; [[0; 5]] ];
     HiddenStateExplorerTsx.promptText := "a" |}.

(** Two layers of two heads each, on a prompt of two tokens. *)
Definition two_by_two : AttentionViewerTsx.AttentionViewerProps :=
  {| AttentionViewerTsx.attentionData :=
       [ [ [[1; 0]; [1 / 4; 3 / 4]]; [[1 / 2; 1 / 2]; [0; 1]] ];
         [ [[1; 0]; [0; 1]]; [[3 / 4; 1 / 4]; [1 / 2; 1 / 2]] ] ];
     AttentionViewerTsx.promptText := "a b" |}.

(** One head whose matrix has 256 rows of 256 entries. *)
Definition wide : AttentionViewerTsx.AttentionViewerProps :=
  {| AttentionViewerTsx.attentionData := [[ repeat (repeat 0 256) 256 ]];
     AttentionViewerTsx.promptText := "a b" |}.

(** Three display tokens against hidden states of two tokens. *)
Definition three_on_two_states : HiddenStateExplorerTsx.HiddenStateExplorerProps :=
  {| HiddenStateExplorerTsx.hiddenStateData :=
       [ [[1; 0]; [0; 1]]; [[3; 4]; [4; 3]] ];
     HiddenStateExplorerTsx.promptText := "a b c" |}.

(** Two analyses. *)
Definition first_analysis : PageTsx.AnalysisData :=
  {| PageTsx.generated_text := "first";
     PageTsx.processed_attentions := [];
     PageTsx.processed_hidden_states := [];
     PageTsx.model_used_for_testing := None |}.

Definition second_analysis : PageTsx.AnalysisData :=
  {| PageTsx.generated_text := "second";
     PageTsx.processed_attentions := [];
     PageTsx.processed_hidden_states := [];
     PageTsx.model_used_for_testing := None |}.

Definition delivers (data : PageTsx.AnalysisData) : PageTsx.FetchOutcome :=
  PageTsx.Fulfilled (PageTsx.OkResponse (Normal data)).

Definition unreachable : PageTsx.FetchOutcome :=
  PageTsx.Rejected (TypeError "Failed to fetch").

(** Two submit events in a row, the second one dispatched by script while
    the button is disabled ([form.requestSubmit()]); then the first
    request delivers, the second still in flight. *)
Definition overtaken : list PageEvents.Event :=
  [ PageEvents.Submit; PageEvents.Submit;
    PageEvents.Settle 0 (delivers first_analysis) ].

(** A request that fails, then, from the enabled form, one that
    delivers. *)
Definition retried : list PageEvents.Event :=
  [ PageEvents.Submit; PageEvents.Settle 0 unreachable;
    PageEvents.Submit; PageEvents.Settle 1 (delivers second_analysis) ].

(** An engine that takes 65535 arguments. *)
Definition engine : Engine := {| maxArguments := 256 * 256 - 1 |}.

End Samples.

(* ================================================================== *)
(** * Notions used in the statements                                    *)
(* ================================================================== *)

Module Notions.
Import Js.

(** The sum of the squares of the components of a vector. *)
Definition sum_of_squares (v : list R) : R :=
  fold_right (fun x acc => (x * x + acc)%R) 0%R v.

(** The trajectory of token [t] over the layers [data], the first of
    which has index [s]: one point per layer that has the token. *)
Fixpoint trajectory_from (t : Z) (s : nat) (data : list (list (list R)))
  : list HiddenStateExplorerTsx.LayerNormPoint :=
  match data with
  | [] => []
  | layerData :: rest =>
      match index layerData t with
      | Some vector =>
          [ {| HiddenStateExplorerTsx.layer := s;
               HiddenStateExplorerTsx.l2norm :=
                 HiddenStateExplorerTsx.l2normOf vector |} ]
      | None => []
      end ++ trajectory_from t (S s) rest
  end.

(** The result set of the page state, if there is one, is what the
    request issued last has delivered. *)
Definition shows_latest (w : PageEvents.World) : Prop :=
  forall data : PageTsx.AnalysisData,
    PageTsx.results (PageEvents.page w) = Some data ->
    exists o : PageTsx.FetchOutcome,
      In (PageEvents.issued w - 1, o) (PageEvents.settled w)
      /\ PageTsx.dataOf o = Some data.

(** The page is loading with the request issued last in flight, alone,
    or it is not loading and no request is in flight. *)
Definition one_at_a_time (w : PageEvents.World) : Prop :=
  (PageTsx.isLoading (PageEvents.page w) = true
   /\ PageEvents.inflight w = [PageEvents.issued w - 1]
   /\ 0 < PageEvents.issued w
   /\ PageTsx.results (PageEvents.page w) = None)
  \/ (PageTsx.isLoading (PageEvents.page w) = false
      /\ PageEvents.inflight w = []).

(** The code units of a string. *)
Definition chars (s : string) : list ascii := list_ascii_of_string s.

(** A code unit that is not white space. *)
Definition visible (c : ascii) : bool := negb (Tokenizer.isWhiteSpace c).

(** A piece cut by [split]: no white space in it, and a punctuation mark
    only as the whole piece. *)
Definition well_cut (piece : string) : Prop :=
  Forall (fun c => Tokenizer.isWhiteSpace c = false) (chars piece)
  /\ (List.length (chars piece) <= 1
      \/ Forall (fun c => Tokenizer.isPunct c = false) (chars piece)).

(** While the page is loading it holds neither an error nor a result
    set. *)
Definition loading_is_clean (st : PageTsx.State) : Prop :=
  PageTsx.isLoading st = true ->
  PageTsx.error st = None /\ PageTsx.results st = None.

End Notions.

(* ================================================================== *)
(** * Events of the selectors                                           *)
(* ================================================================== *)

(** The change events that the two [<select>] elements of
    [AttentionViewer] raise. *)
Module Selecting.
Import Js AttentionViewerTsx.

Inductive Event : Type :=
| LayerChange (value : Z)    (* onChange of #layer-select *)
| HeadChange (value : Z).    (* onChange of #head-select *)

Definition handle (st : State) (ev : Event) : State :=
  match ev with
  | LayerChange value => handleLayerChange value st
  | HeadChange value => handleHeadChange value st
  end.

(** [value] is the value of one of the options [i => <option value={i}>]. *)
Definition is_option (options : list nat) (value : Z) : bool :=
  existsb (fun i => (Z.of_nat i =? value)%Z) options.

(** The event chooses an option that the component renders in state
    [st]: lines 82-84 for the layer, lines 96-98 for the head. *)
Definition offered (props : AttentionViewerProps) (st : State) (ev : Event)
  : bool :=
  match ev with
  | LayerChange value => is_option (indices (numLayers props)) value
  | HeadChange value => is_option (indices (numHeads props st)) value
  end.

(** Every event of the trace chooses an option rendered when it is
    raised. *)
Fixpoint all_offered (props : AttentionViewerProps) (st : State)
  (trace : list Event) : bool :=
  match trace with
  | [] => true
  | ev :: trace' =>
      offered props st ev && all_offered props (handle st ev) trace'
  end.

Definition run (trace : list Event) (st : State) : State :=
  fold_left handle trace st.

(** The selection is on a layer of the tensor, and on a head of that layer
    or on head 0. *)
Definition selectable (props : AttentionViewerProps) (st : State) : Prop :=
  (0 <= selectedLayer st < Z.of_nat (numLayers props))%Z
  /\ (selectedHead st = 0%Z
      \/ (0 <= selectedHead st < Z.of_nat (numHeads props st))%Z).

End Selecting.

(* ================================================================== *)
(** * Properties                                                        *)
(* ================================================================== *)

(** ** The tokenizer *)

Section TokenizerFacts.
Import Tokenizer.

Lemma separator_exec_ge (str : string) (q e : nat) :
  separator_exec str q = Some e -> q <= e.
Proof.
  unfold separator_exec.
  destruct (span_ws (suffix str q)) as [|k].
  - destruct (punct_at str q).
    + intros [= <-]. lia.
    + destruct ((0 <? q) && punct_at str (q - 1)); [intros [= <-]; lia | discriminate].
  - intros [= <-]. lia.
Qed.

(** The loop of [split] stops: [q] moves right, or [p] catches up
    with [q]. *)
Lemma split_loop_returns (fuel : nat) :
  forall (str : string) (p q : nat) (A : list string),
    p <= q ->
    2 * (String.length str - q) + (if p <? q then 1 else 0) < fuel ->
    exists pieces, split_loop fuel str p q A = Some pieces.
Proof.
  induction fuel as [|fuel IH]; intros str p q A Hpq Hfuel; [lia|].
  cbn [split_loop].
  destruct (String.length str <=? q) eqn:Hend; [eauto|].
  apply Nat.leb_gt in Hend.
  assert (Hnext : exists pieces, split_loop fuel str p (q + 1) A = Some pieces).
  { apply IH; [lia|].
    destruct (p <? q + 1); destruct (p <? q); lia. }
  destruct (separator_exec str q) as [e0|] eqn:Hexec; [|exact Hnext].
  apply separator_exec_ge in Hexec.
  destruct (Nat.min e0 (String.length str) =? p) eqn:Hep; [exact Hnext|].
  apply Nat.eqb_neq in Hep.
  apply IH; [lia|].
  rewrite Nat.ltb_irrefl.
  destruct (p <? q) eqn:Hlt.
  - lia.
  - apply Nat.ltb_ge in Hlt. lia.
Qed.

Lemma split_returns (str : string) :
  exists pieces, split_loop (split_fuel str) str 0 0 [] = Some pieces.
Proof.
  apply split_loop_returns; [lia|].
  unfold split_fuel. cbn [Nat.ltb Nat.leb]. lia.
Qed.

End TokenizerFacts.

(** C8.  [simpleTokenize] is a function of its argument alone: the loop of
    [split] returns on every string (so the token sequence is defined, and
    the same, at every call), the two components tokenize alike, the empty
    string has no token, and ["Hello, world!"] has the four tokens
    ["Hello"], [","], ["world"], ["!"], in this order. *)
Theorem simpleTokenize_deterministic :
  (forall text : string,
      exists pieces,
        Tokenizer.split_loop (Tokenizer.split_fuel text) text 0 0 [] = Some pieces)
  /\ (forall text : string,
        AttentionViewerTsx.simpleTokenize text
        = HiddenStateExplorerTsx.simpleTokenize text)
  /\ AttentionViewerTsx.simpleTokenize EmptyString = []
  /\ AttentionViewerTsx.simpleTokenize "Hello, world!"
     = ["Hello"; ","; "world"; "!"]%string.
Proof.
  split; [exact split_returns|].
  split; [reflexivity|].
  split; vm_compute; reflexivity.
Qed.

(** ** Numbers and arrays *)

Section JsFacts.
Import Js.
Local Open Scope R_scope.

Lemma strict_eq_Num (a b : R) :
  strict_eq (Num a) (Num b) = true <-> a = b.
Proof.
  cbn. destruct (Req_dec_T a b); split; congruence.
Qed.

Lemma sub_Num (a b : R) : sub (Num a) (Num b) = Num (a - b).
Proof. reflexivity. Qed.

Lemma div_Num (a b : R) : b <> 0 -> div (Num a) (Num b) = Num (a / b).
Proof.
  intros Hb. cbn. destruct (Req_dec_T b 0); [contradiction | reflexivity].
Qed.

(** [Math.min] of finitely many finite values is the least of them. *)
Lemma Math_min_Num (l : list R) :
  l <> [] ->
  exists lo, Math_min (map Num l) = Num lo
             /\ In lo l /\ (forall x, In x l -> lo <= x).
Proof.
  induction l as [|x l IH]; [congruence|]. intros _.
  destruct l as [|y l].
  - exists x. cbn. repeat split; auto.
    intros z [<-|[]]. lra.
  - destruct IH as (lo & Hlo & Hin & Hle); [discriminate|].
    exists (Rmin x lo).
    change (Math_min (map Num (x :: y :: l)))
      with (min2 (Num x) (Math_min (map Num (y :: l)))).
    rewrite Hlo. split; [reflexivity|]. split.
    + unfold Rmin. destruct (Rle_dec x lo); [left; reflexivity | right; exact Hin].
    + intros z [<-|Hz].
      * apply Rmin_l.
      * eapply Rle_trans; [apply Rmin_r | apply Hle, Hz].
Qed.

(** [Math.max] of finitely many finite values is the greatest of them. *)
Lemma Math_max_Num (l : list R) :
  l <> [] ->
  exists hi, Math_max (map Num l) = Num hi
             /\ In hi l /\ (forall x, In x l -> x <= hi).
Proof.
  induction l as [|x l IH]; [congruence|]. intros _.
  destruct l as [|y l].
  - exists x. cbn. repeat split; auto.
    intros z [<-|[]]. lra.
  - destruct IH as (hi & Hhi & Hin & Hle); [discriminate|].
    exists (Rmax x hi).
    change (Math_max (map Num (x :: y :: l)))
      with (max2 (Num x) (Math_max (map Num (y :: l)))).
    rewrite Hhi. split; [reflexivity|]. split.
    + unfold Rmax. destruct (Rle_dec x hi); [right; exact Hin | left; reflexivity].
    + intros z [<-|Hz].
      * apply Rmax_l.
      * eapply Rle_trans; [apply Hle, Hz | apply Rmax_r].
Qed.

Lemma index_Some {A : Type} (a : list A) (i : Z) (x : A) :
  index a i = Some x ->
  (0 <= i < Z.of_nat (List.length a))%Z /\ nth_error a (Z.to_nat i) = Some x.
Proof.
  unfold index. destruct (i <? 0)%Z eqn:Hneg; [discriminate|].
  apply Z.ltb_ge in Hneg. intros H. split; [|exact H].
  assert (Hlt : (Z.to_nat i < List.length a)%nat).
  { apply nth_error_Some. congruence. }
  lia.
Qed.

Lemma index_None {A : Type} (a : list A) (i : Z) :
  index a i = None <-> (i < 0 \/ Z.of_nat (List.length a) <= i)%Z.
Proof.
  unfold index. destruct (i <? 0)%Z eqn:Hneg.
  - apply Z.ltb_lt in Hneg. split; auto.
  - apply Z.ltb_ge in Hneg. rewrite nth_error_None. lia.
Qed.

(** What [a.map((x, i) => ...)] visits: every element, with its index. *)
Lemma combine_seq_nth {A : Type} (a : list A) :
  forall (s i : nat) (x : A),
    nth_error (combine (seq s (List.length a)) a) i
    = option_map (fun x => ((s + i)%nat, x)) (nth_error a i).
Proof.
  induction a as [|y a IH]; intros s i x.
  - destruct i; reflexivity.
  - destruct i as [|i]; cbn.
    + now rewrite Nat.add_0_r.
    + rewrite (IH (S s) i x). now rewrite Nat.add_succ_r.
Qed.

Lemma mapi_nth {A B : Type} (f : A -> nat -> B) (a : list A) (i : nat) :
  nth_error (mapi f a) i = option_map (fun x => f x i) (nth_error a i).
Proof.
  unfold mapi, indices. rewrite nth_error_map.
  destruct a as [|y a].
  - destruct i; reflexivity.
  - rewrite (combine_seq_nth (y :: a) 0 i y).
    destruct (nth_error (y :: a) i); reflexivity.
Qed.


Lemma mapi_In {A B : Type} (f : A -> nat -> B) (a : list A) (y : B) :
  In y (mapi f a) <->
  exists i x, nth_error a i = Some x /\ y = f x i.
Proof.
  split.
  - intros H. apply In_nth_error in H. destruct H as [i Hi].
    rewrite mapi_nth in Hi.
    destruct (nth_error a i) as [x|] eqn:Hx; [|discriminate].
    exists i, x. split; [exact Hx|]. cbn in Hi. congruence.
  - intros (i & x & Hx & ->).
    apply (nth_error_In _ i). rewrite mapi_nth, Hx. reflexivity.
Qed.

End JsFacts.

(** ** The attention viewer *)

Section AttentionViewerFacts.
Import Js AttentionViewerTsx.

Lemma index_nil {A : Type} (i : Z) : index (@nil A) i = None.
Proof. apply index_None. cbn. lia. Qed.

Lemma index_in_range {A : Type} (a : list A) (i : Z) :
  (0 <= i < Z.of_nat (List.length a))%Z -> exists x, index a i = Some x.
Proof.
  intros Hi. destruct (index a i) as [x|] eqn:E; [eauto|].
  apply index_None in E. lia.
Qed.

Lemma currentAttentionMatrix_nonempty props st m :
  currentAttentionMatrix props st = Some m ->
  (List.length (attentionData props) =? 0) = false.
Proof.
  unfold currentAttentionMatrix.
  destruct (attentionData props) as [|l ls]; [|reflexivity].
  rewrite index_nil. discriminate.
Qed.

Local Open Scope R_scope.

(** Min-max normalisation of a value between two distinct bounds. *)
Lemma getNormalizedScore_between (v lo hi : R) :
  lo < hi ->
  getNormalizedScore (Num v) (Num lo) (Num hi) = Num ((v - lo) / (hi - lo)).
Proof.
  intros Hlt. unfold getNormalizedScore.
  destruct (strict_eq (Num hi) (Num lo)) eqn:Heq.
  - apply strict_eq_Num in Heq. lra.
  - rewrite !sub_Num, div_Num; [reflexivity | lra].
Qed.

Local Close Scope R_scope.

(** A loop whose callback throws on its first element throws. *)
Lemma mapM_from_throws {A B : Type} (f : A -> nat -> Completion B)
  (a : list A) (i : nat) (e : Exception) :
  a <> [] -> (forall x, f x i = Throw e) -> mapM_from f a i = Throw e.
Proof.
  destruct a as [|x a]; [congruence|]. intros _ Hf.
  cbn [mapM_from]. now rewrite Hf.
Qed.

Lemma renderTable_throws m lo hi tokens :
  tokens <> [] ->
  renderTable m lo hi tokens
  = Throw (ReferenceError "constbgColor is not defined").
Proof.
  intros Hne. unfold renderTable, mapM_i.
  rewrite (mapM_from_throws _ tokens 0
             (ReferenceError "constbgColor is not defined") Hne);
    [reflexivity|].
  intros queryToken.
  now rewrite (mapM_from_throws _ tokens 0
                 (ReferenceError "constbgColor is not defined") Hne).
Qed.

(** The two spreads of lines 63-64. *)
Lemma scoreBounds_some engine m :
  scoreBounds engine (Some m)
  = if maxArguments engine <? List.length (flat m)
    then Throw (RangeError "Maximum call stack size exceeded")
    else Normal (Math_min (map Num (flat m)), Math_max (map Num (flat m))).
Proof.
  unfold scoreBounds, spread. rewrite length_map.
  destruct (maxArguments engine <? List.length (flat m)); reflexivity.
Qed.

(** With a matrix selected and a token to show, the component logs the
    mismatch if there is one, and throws. *)
Lemma AttentionViewer_throws engine props st m :
  currentAttentionMatrix props st = Some m ->
  0 < List.length (simpleTokenize (promptText props)) ->
  AttentionViewer engine props st
  = (if mismatch (Some m) (simpleTokenize (promptText props))
     then [ {| warnTokens := List.length (simpleTokenize (promptText props));
               warnDim1 := Some (List.length m);
               warnDim2 := opt_length (index m 0) |} ]
     else [],
     Throw (if maxArguments engine <? List.length (flat m)
            then RangeError "Maximum call stack size exceeded"
            else ReferenceError "constbgColor is not defined")).
Proof.
  intros Hcam Htok. unfold AttentionViewer.
  rewrite (currentAttentionMatrix_nonempty _ _ _ Hcam), Hcam.
  rewrite scoreBounds_some.
  assert (Hp : (0 <? List.length (simpleTokenize (promptText props))) = true)
    by (apply Nat.ltb_lt; lia).
  assert (Hne : simpleTokenize (promptText props) <> [])
    by (intros E; rewrite E in Htok; cbn in Htok; lia).
  f_equal.
  destruct (maxArguments engine <? List.length (flat m)); [reflexivity|].
  cbn [bind fst snd]. rewrite Hp, (renderTable_throws _ _ _ _ Hne). reflexivity.
Qed.

End AttentionViewerFacts.

(** C4.  On a prompt with a token and a matrix of two distinct values
    the component computes the bounds and the intensity of the first
    cell, and throws at line 132 before any cell is returned: no cell
    gets an intensity.  (With more entries than the engine takes
    arguments the spread of line 63 has thrown before.) *)
Theorem two_valued_matrix_render_throws :
  forall (engine : Js.Engine)
         (props : AttentionViewerTsx.AttentionViewerProps)
         (st : AttentionViewerTsx.State)
         (m : AttentionViewerTsx.Matrix) (a b : R),
    AttentionViewerTsx.currentAttentionMatrix props st = Some m ->
    In a (Js.flat m) -> In b (Js.flat m) -> a <> b ->
    0 < List.length (AttentionViewerTsx.simpleTokenize
                       (AttentionViewerTsx.promptText props)) ->
    List.length (Js.flat m) <= Js.maxArguments engine ->
    snd (AttentionViewerTsx.AttentionViewer engine props st)
    = Js.Throw (Js.ReferenceError "constbgColor is not defined").
Proof.
  intros engine props st m a b Hcam _ _ _ Htok Hfit.
  rewrite (AttentionViewer_throws engine props st m Hcam Htok). cbn [snd].
  apply Nat.ltb_ge in Hfit. now rewrite Hfit.
Qed.

(** C4 on the matrix [[1, 0], [0.25, 0.75]] and the prompt ["a b"]. *)
Lemma two_valued_matrix_render_throws_witness :
  AttentionViewerTsx.AttentionViewer Samples.engine Samples.sharp
    AttentionViewerTsx.initialState
  = ([], Js.Throw (Js.ReferenceError "constbgColor is not defined")).
Proof.
  assert (H := two_valued_matrix_render_throws Samples.engine Samples.sharp
                 AttentionViewerTsx.initialState
                 [[1; 0]; [1 / 4; 3 / 4]]%R 1%R 0%R).
  assert (Hfst : fst (AttentionViewerTsx.AttentionViewer Samples.engine
                        Samples.sharp AttentionViewerTsx.initialState) = [])
    by (vm_compute; reflexivity).
  rewrite (surjective_pairing
             (AttentionViewerTsx.AttentionViewer Samples.engine Samples.sharp
                AttentionViewerTsx.initialState)).
  rewrite Hfst, H.
  - reflexivity.
  - reflexivity.
  - cbn. auto.
  - cbn. auto.
  - lra.
  - vm_compute. lia.
  - apply Nat.leb_le. vm_compute. reflexivity.
Defined.

(** C5.  On a prompt with a token and a matrix whose entries are all
    equal the component throws at line 132 as well: the intensity 0.5 of
    the first cell is computed, and no cell is returned. *)
Theorem uniform_matrix_render_throws :
  forall (engine : Js.Engine)
         (props : AttentionViewerTsx.AttentionViewerProps)
         (st : AttentionViewerTsx.State)
         (m : AttentionViewerTsx.Matrix) (v : R),
    AttentionViewerTsx.currentAttentionMatrix props st = Some m ->
    In v (Js.flat m) ->
    (forall x, In x (Js.flat m) -> x = v) ->
    0 < List.length (AttentionViewerTsx.simpleTokenize
                       (AttentionViewerTsx.promptText props)) ->
    List.length (Js.flat m) <= Js.maxArguments engine ->
    AttentionViewerTsx.getNormalizedScore
      (AttentionViewerTsx.scoreAt m 0 0) (Js.Num v) (Js.Num v)
    = Js.Num (1 / 2)
    /\ snd (AttentionViewerTsx.AttentionViewer engine props st)
       = Js.Throw (Js.ReferenceError "constbgColor is not defined").
Proof.
  intros engine props st m v Hcam _ _ Htok Hfit. split.
  - unfold AttentionViewerTsx.getNormalizedScore.
    now rewrite (proj2 (strict_eq_Num v v) eq_refl).
  - rewrite (AttentionViewer_throws engine props st m Hcam Htok). cbn [snd].
    apply Nat.ltb_ge in Hfit. now rewrite Hfit.
Qed.

(** C5 on [[0.5, 0.5], [0.5, 0.5]] and the prompt ["a b"]: no cell. *)
Lemma uniform_matrix_render_throws_witness :
  snd (AttentionViewerTsx.AttentionViewer Samples.engine Samples.uniform
         AttentionViewerTsx.initialState)
  = Js.Throw (Js.ReferenceError "constbgColor is not defined").
Proof.
  apply (uniform_matrix_render_throws Samples.engine Samples.uniform
           AttentionViewerTsx.initialState
           [[1 / 2; 1 / 2]; [1 / 2; 1 / 2]]%R (1 / 2)%R).
  - reflexivity.
  - cbn. auto.
  - cbn. intuition congruence.
  - vm_compute. lia.
  - apply Nat.leb_le. vm_compute. reflexivity.
Defined.

(** C1.  When the number of display tokens differs from the number of
    rows of the selected matrix, the component logs the warning of lines
    43-46 and then throws: at line 132, on the first cell, or before, at
    line 63, when the matrix has more entries than the engine takes
    arguments.  It renders nothing. *)
Theorem mismatch_warns_then_throws :
  forall (engine : Js.Engine)
         (props : AttentionViewerTsx.AttentionViewerProps)
         (st : AttentionViewerTsx.State)
         (m : AttentionViewerTsx.Matrix),
    let tokens :=
      AttentionViewerTsx.simpleTokenize (AttentionViewerTsx.promptText props) in
    AttentionViewerTsx.currentAttentionMatrix props st = Some m ->
    List.length m <> List.length tokens ->
    0 < List.length tokens ->
    AttentionViewerTsx.AttentionViewer engine props st
    = ([ {| AttentionViewerTsx.warnTokens := List.length tokens;
            AttentionViewerTsx.warnDim1 := Some (List.length m);
            AttentionViewerTsx.warnDim2 := Js.opt_length (Js.index m 0) |} ],
       Js.Throw (if Js.maxArguments engine <? List.length (Js.flat m)
                 then Js.RangeError "Maximum call stack size exceeded"
                 else Js.ReferenceError "constbgColor is not defined")).
Proof.
  intros engine props st m tokens Hcam Hlen Htok.
  rewrite (AttentionViewer_throws engine props st m Hcam Htok). fold tokens.
  assert (Hmis : AttentionViewerTsx.mismatch (Some m) tokens = true).
  { cbn. apply orb_true_iff. right. apply negb_true_iff, Nat.eqb_neq, Hlen. }
  now rewrite Hmis.
Qed.

(** C1 on five display tokens against a 4x4 matrix. *)
Lemma mismatch_warns_then_throws_witness :
  AttentionViewerTsx.AttentionViewer Samples.engine Samples.five_on_four
    AttentionViewerTsx.initialState
  = ([ {| AttentionViewerTsx.warnTokens := 5;
          AttentionViewerTsx.warnDim1 := Some 4;
          AttentionViewerTsx.warnDim2 := Some 4 |} ],
     Js.Throw (Js.ReferenceError "constbgColor is not defined")).
Proof.
  rewrite (mismatch_warns_then_throws Samples.engine Samples.five_on_four
             AttentionViewerTsx.initialState
             [Samples.quarters; Samples.quarters;
              Samples.quarters; Samples.quarters]).
  - vm_compute. reflexivity.
  - reflexivity.
  - vm_compute. lia.
  - vm_compute. lia.
Defined.

(** C2, as the specification has it, fails at a layer index equal to the
    number of layers: the component throws nothing, it returns the
    selectors and the placeholder. *)
Lemma layer_past_last_counterexample :
  (Z.of_nat (AttentionViewerTsx.numLayers Samples.five_on_four)
   <= AttentionViewerTsx.selectedLayer Samples.past_last_layer)%Z
  /\ AttentionViewerTsx.AttentionViewer
       Samples.engine Samples.five_on_four Samples.past_last_layer
     = ([ {| AttentionViewerTsx.warnTokens := 5;
             AttentionViewerTsx.warnDim1 := None;
             AttentionViewerTsx.warnDim2 := None |} ],
        Js.Normal (AttentionViewerTsx.Viewer [0] [] true None))
  /\ ~ (exists e : Js.Exception,
          snd (AttentionViewerTsx.AttentionViewer
                 Samples.engine Samples.five_on_four Samples.past_last_layer)
          = Js.Throw e).
Proof.
  split; [cbn; lia|].
  assert (H : AttentionViewerTsx.AttentionViewer
                Samples.engine Samples.five_on_four Samples.past_last_layer
              = ([ {| AttentionViewerTsx.warnTokens := 5;
                      AttentionViewerTsx.warnDim1 := None;
                      AttentionViewerTsx.warnDim2 := None |} ],
                 Js.Normal (AttentionViewerTsx.Viewer [0] [] true None)))
    by (vm_compute; reflexivity).
  split; [exact H|].
  intros [e He]. rewrite H in He. discriminate.
Qed.

(** C2, amended.  A layer index outside [0 <= layer < numLayers], or a
    head index outside [0 <= head < numHeads], selects no matrix
    ([undefined]): nothing is thrown, nothing is clamped or substituted.
    On a tensor with a layer the component returns the selectors with the
    placeholder in place of the table, and logs one warning; on a tensor
    without any layer it returns the notice that no data is available,
    and logs nothing. *)
Theorem out_of_range_selection_renders_placeholder :
  forall (engine : Js.Engine)
         (props : AttentionViewerTsx.AttentionViewerProps)
         (st : AttentionViewerTsx.State),
    ((AttentionViewerTsx.selectedLayer st < 0
      \/ Z.of_nat (AttentionViewerTsx.numLayers props)
         <= AttentionViewerTsx.selectedLayer st)
     \/ (AttentionViewerTsx.selectedHead st < 0
         \/ Z.of_nat (AttentionViewerTsx.numHeads props st)
            <= AttentionViewerTsx.selectedHead st))%Z ->
    AttentionViewerTsx.currentAttentionMatrix props st = None
    /\ AttentionViewerTsx.AttentionViewer engine props st
       = match AttentionViewerTsx.attentionData props with
         | [] => ([], Js.Normal AttentionViewerTsx.Unavailable)
         | _ :: _ =>
             ([ {| AttentionViewerTsx.warnTokens :=
                     List.length (AttentionViewerTsx.simpleTokenize
                                    (AttentionViewerTsx.promptText props));
                   AttentionViewerTsx.warnDim1 := None;
                   AttentionViewerTsx.warnDim2 := None |} ],
              Js.Normal
                (AttentionViewerTsx.Viewer
                   (Js.indices (AttentionViewerTsx.numLayers props))
                   (Js.indices (AttentionViewerTsx.numHeads props st))
                   true None))
         end.
Proof.
  intros engine props st Hout.
  assert (Hcam : AttentionViewerTsx.currentAttentionMatrix props st = None).
  { unfold AttentionViewerTsx.currentAttentionMatrix, Js.opt_index.
    unfold AttentionViewerTsx.numHeads, AttentionViewerTsx.numLayers in Hout.
    destruct (Js.index (AttentionViewerTsx.attentionData props)
                       (AttentionViewerTsx.selectedLayer st))
      as [heads|] eqn:Hlayer; [|reflexivity].
    apply index_None. cbn [Js.opt_length option_map] in Hout.
    apply index_Some in Hlayer. lia. }
  split; [exact Hcam|].
  unfold AttentionViewerTsx.AttentionViewer. rewrite Hcam.
  destruct (AttentionViewerTsx.attentionData props) as [|l ls]; reflexivity.
Qed.

(** The amended C2 at a layer index equal to the number of layers. *)
Lemma out_of_range_selection_renders_placeholder_witness :
  AttentionViewerTsx.currentAttentionMatrix
    Samples.five_on_four Samples.past_last_layer = None
  /\ Js.isNormal (snd (AttentionViewerTsx.AttentionViewer Samples.engine
                         Samples.five_on_four Samples.past_last_layer)) = true.
Proof.
  destruct (out_of_range_selection_renders_placeholder
              Samples.engine Samples.five_on_four Samples.past_last_layer)
    as [Hcam Hview].
  - left. right. cbn. lia.
  - split; [exact Hcam|]. rewrite Hview. reflexivity.
Defined.

(** C10.  [handleLayerChange] stores the chosen layer and sets the head
    index to 0; when the chosen layer has at least one head, the pair then
    selects the first matrix of that layer. *)
Theorem handleLayerChange_resets_head :
  forall (props : AttentionViewerTsx.AttentionViewerProps)
         (st : AttentionViewerTsx.State) (newLayer : Z),
    let st' := AttentionViewerTsx.handleLayerChange newLayer st in
    AttentionViewerTsx.selectedLayer st' = newLayer
    /\ AttentionViewerTsx.selectedHead st' = 0%Z
    /\ (0 < AttentionViewerTsx.numHeads props st' ->
        exists heads m,
          Js.index (AttentionViewerTsx.attentionData props) newLayer = Some heads
          /\ nth_error heads 0 = Some m
          /\ AttentionViewerTsx.currentAttentionMatrix props st' = Some m).
Proof.
  intros props st newLayer st'.
  split; [reflexivity|]. split; [reflexivity|].
  unfold AttentionViewerTsx.numHeads, AttentionViewerTsx.currentAttentionMatrix.
  cbn [st' AttentionViewerTsx.handleLayerChange
       AttentionViewerTsx.selectedLayer AttentionViewerTsx.selectedHead].
  destruct (Js.index (AttentionViewerTsx.attentionData props) newLayer)
    as [heads|]; cbn [Js.opt_length option_map]; [|lia].
  destruct heads as [|m heads]; cbn [List.length]; [lia|].
  intros _. exists (m :: heads), m. repeat split.
Qed.

(** C10 on a layer change to layer 0 from an out-of-range selection. *)
Lemma handleLayerChange_resets_head_witness :
  exists m,
    AttentionViewerTsx.currentAttentionMatrix Samples.five_on_four
      (AttentionViewerTsx.handleLayerChange 0
         {| AttentionViewerTsx.selectedLayer := 1;
            AttentionViewerTsx.selectedHead := 3 |})
    = Some m.
Proof.
  destruct (handleLayerChange_resets_head Samples.five_on_four
              {| AttentionViewerTsx.selectedLayer := 1;
                 AttentionViewerTsx.selectedHead := 3 |} 0%Z)
    as (_ & _ & Hhead).
  destruct Hhead as (heads & m & _ & _ & Hm).
  - cbn. lia.
  - exists m. exact Hm.
Defined.

(** ** The hidden-state explorer *)

Section HiddenStateFacts.
Import Js HiddenStateExplorerTsx Notions.
Local Open Scope R_scope.

Lemma sum_of_squares_cons (x : R) (v : list R) :
  sum_of_squares (x :: v) = x * x + sum_of_squares v.
Proof. reflexivity. Qed.

Lemma sum_of_squares_nonneg (v : list R) : 0 <= sum_of_squares v.
Proof.
  induction v as [|x v IH]; [cbn; lra|].
  rewrite sum_of_squares_cons. nra.
Qed.

(** The [reduce] of [l2norm], from any finite accumulator. *)
Lemma reduce_squares (v : list R) :
  forall a : R,
    fold_left (fun sum val => add sum (mul (Num val) (Num val))) v (Num a)
    = Num (a + sum_of_squares v).
Proof.
  induction v as [|x v IH]; intros a.
  - cbn. f_equal. lra.
  - rewrite sum_of_squares_cons. cbn [fold_left mul add]. rewrite IH.
    f_equal. lra.
Qed.

Lemma l2normOf_sqrt (v : list R) :
  l2normOf v = Num (sqrt (sum_of_squares v)).
Proof.
  unfold l2normOf. rewrite reduce_squares. cbn [Math_sqrt].
  pose proof (sum_of_squares_nonneg v).
  destruct (Rlt_dec (0 + sum_of_squares v) 0); [lra|].
  do 2 f_equal. lra.
Qed.

End HiddenStateFacts.

Section TrajectoryFacts.
Import Js HiddenStateExplorerTsx Notions.

(** The [forEach] of lines 37-43 appends, layer after layer, the points
    of [trajectory_from]. *)
Lemma fold_pushLayer (t : Z) (data : list (list (list R))) :
  forall (s : nat) (acc : list LayerNormPoint),
    fold_left (pushLayer t) (combine (seq s (List.length data)) data) acc
    = acc ++ trajectory_from t s data.
Proof.
  induction data as [|layerData rest IH]; intros s acc.
  - cbn. now rewrite app_nil_r.
  - cbn [List.length seq combine fold_left trajectory_from pushLayer].
    rewrite IH. destruct (index layerData t) as [vector|].
    + now rewrite <- app_assoc.
    + reflexivity.
Qed.

Lemma chartData_trajectory (data : list (list (list R))) (t : Z) :
  chartData data (Some t) = trajectory_from t 0 data.
Proof.
  unfold chartData. destruct data as [|layerData rest]; [reflexivity|].
  cbn [List.length Nat.ltb Nat.leb]. apply (fold_pushLayer t (layerData :: rest) 0 []).
Qed.

Lemma trajectory_from_In (t : Z) (data : list (list (list R))) :
  forall (s : nat) (p : LayerNormPoint),
    In p (trajectory_from t s data) <->
    exists k layerData vector,
      nth_error data k = Some layerData
      /\ index layerData t = Some vector
      /\ p = {| layer := s + k; l2norm := l2normOf vector |}.
Proof.
  induction data as [|layerData rest IH]; intros s p.
  - cbn. split; [intros [] | intros (k & ld & v & Hk & _)].
    destruct k; discriminate.
  - cbn [trajectory_from]. rewrite in_app_iff, IH. split.
    + intros [Hhead | (k & ld & v & Hk & Hv & ->)].
      * destruct (index layerData t) as [vector|] eqn:Hv; [|destruct Hhead].
        destruct Hhead as [<-|[]].
        exists 0, layerData, vector. rewrite Nat.add_0_r. auto.
      * exists (S k), ld, v. rewrite Nat.add_succ_r. auto.
    + intros (k & ld & v & Hk & Hv & ->). destruct k as [|k].
      * left. cbn in Hk. injection Hk as <-. rewrite Hv, Nat.add_0_r.
        left. reflexivity.
      * right. exists k, ld, v. rewrite Nat.add_succ_r. auto.
Qed.

Lemma trajectory_from_sorted (t : Z) (data : list (list (list R))) :
  forall s : nat,
    StronglySorted lt (map layer (trajectory_from t s data))
    /\ Forall (le s) (map layer (trajectory_from t s data)).
Proof.
  induction data as [|layerData rest IH]; intros s.
  - cbn. split; constructor.
  - cbn [trajectory_from]. destruct (IH (S s)) as [Hsorted Hge].
    assert (Hge' : Forall (le s) (map layer (trajectory_from t (S s) rest))).
    { eapply Forall_impl; [|exact Hge]. cbn. intros; lia. }
    destruct (index layerData t) as [vector|]; cbn [app map layer].
    + split; constructor; auto.
    + split; assumption.
Qed.


End TrajectoryFacts.


Section CoordinateFacts.
Import Js HiddenStateExplorerTsx Notions.
Local Open Scope R_scope.

Lemma add_Num (a b : R) : add (Num a) (Num b) = Num (a + b).
Proof. reflexivity. Qed.

Lemma mul_Num (a b : R) : mul (Num a) (Num b) = Num (a * b).
Proof. reflexivity. Qed.

Lemma Math_max_pair (a b : R) : Math_max [Num a; Num b] = Num (Rmax a b).
Proof. reflexivity. Qed.

Lemma ratio_of_guarded (a w : R) :
  0 <= a <= w -> 0 <= a / Rmax 1 w <= 1.
Proof.
  intros Ha.
  pose proof (Rmax_l 1 w). pose proof (Rmax_r 1 w).
  split.
  - apply Rmult_le_pos; [lra|]. left. apply Rinv_0_lt_compat. lra.
  - apply (Rmult_le_reg_r (Rmax 1 w)); [lra|].
    unfold Rdiv. rewrite Rmult_assoc, Rinv_l; lra.
Qed.

(** [getX] on a layer index of the tensor. *)
Lemma getX_in_viewport (numLayers L : nat) :
  (L < numLayers)%nat ->
  exists px dx,
    Math_max [Num 1; sub (of_nat numLayers) (Num 1)] = Num dx /\ 1 <= dx
    /\ getX numLayers (of_nat L) = Num px
    /\ 50 <= px <= 450
    /\ (numLayers = 1%nat -> px = 50).
Proof.
  intros HL. unfold getX, chartWidth, svgWidth, padding, of_nat.
  rewrite !mul_Num, !sub_Num, Math_max_pair.
  assert (Hd : 1 <= Rmax 1 (INR numLayers - 1)) by apply Rmax_l.
  rewrite div_Num by lra. rewrite mul_Num, add_Num.
  assert (HLn : 0 <= INR L <= INR numLayers - 1).
  { split; [apply pos_INR|].
    assert (Hle : INR (L + 1) <= INR numLayers) by (apply le_INR; lia).
    rewrite plus_INR in Hle. cbn [INR] in Hle. lra. }
  pose proof (ratio_of_guarded _ _ HLn) as Hr.
  eexists _, _. split; [reflexivity|]. split; [exact Hd|].
  split; [reflexivity|]. split; [nra|].
  intros ->. assert (L = 0)%nat by lia. subst L. cbn [INR].
  unfold Rdiv. lra.
Qed.

(** [getY] on a value between the two bounds of the series. *)
Lemma getY_in_viewport (a b x : R) :
  a <= x <= b ->
  exists py dy,
    Math_max [Num 1; sub (Num b) (Num a)] = Num dy /\ 1 <= dy
    /\ getY (Num a) (Num b) (Num x) = Num py
    /\ 50 <= py <= 250
    /\ (a = b -> py = 250).
Proof.
  intros Hx. unfold getY, chartHeight, svgHeight, padding.
  rewrite !mul_Num, !sub_Num, Math_max_pair.
  assert (Hd : 1 <= Rmax 1 (b - a)) by apply Rmax_l.
  rewrite div_Num by lra. rewrite mul_Num, add_Num, sub_Num.
  assert (Hxa : 0 <= x - a <= b - a) by lra.
  pose proof (ratio_of_guarded _ _ Hxa) as Hr.
  eexists _, _. split; [reflexivity|]. split; [exact Hd|].
  split; [reflexivity|]. split; [nra|].
  intros ->. replace (x - b) with 0 by lra. unfold Rdiv. lra.
Qed.

(** The norms of a series of finite norms, as reals. *)
Lemma finite_norms (cd : list LayerNormPoint) :
  (forall p, In p cd -> exists r, l2norm p = Num r) ->
  exists rs, map l2norm cd = map Num rs
             /\ forall p r, In p cd -> l2norm p = Num r -> In r rs.
Proof.
  induction cd as [|p cd IH]; intros Hfin.
  - exists []. split; [reflexivity|]. intros ? ? [].
  - destruct (Hfin p (or_introl eq_refl)) as [r Hr].
    destruct IH as (rs & Hrs & Hin).
    { intros q Hq. apply Hfin. right. exact Hq. }
    exists (r :: rs). split.
    + cbn. now rewrite Hr, Hrs.
    + intros q r' [<-|Hq] Hr'.
      * left. congruence.
      * right. eapply Hin; eassumption.
Qed.

(** The bounds of the chart are norms of the series, and enclose it. *)
Lemma chart_bounds (data : list (list (list R))) (st : State) (p : LayerNormPoint) :
  In p (chartData data st) ->
  exists a b x,
    minL2Norm (chartData data st) = Num a
    /\ maxL2Norm (chartData data st) = Num b
    /\ l2norm p = Num x /\ a <= x <= b
    /\ (layer p < List.length data)%nat.
Proof.
  intros Hp. destruct st as [t|]; [|destruct Hp].
  assert (Hpoint : forall q, In q (chartData data (Some t)) ->
             exists r, l2norm q = Num r).
  { intros q Hq. rewrite chartData_trajectory in Hq.
    apply trajectory_from_In in Hq. destruct Hq as (k & ld & v & _ & _ & ->).
    cbn [l2norm]. rewrite l2normOf_sqrt. eauto. }
  destruct (finite_norms _ Hpoint) as (rs & Hrs & Hin).
  destruct (Hpoint p Hp) as [x Hx].
  assert (Hne : rs <> []).
  { intros ->. exact (Hin p x Hp Hx). }
  destruct (Math_min_Num rs Hne) as (a & Ha & _ & Hle).
  destruct (Math_max_Num rs Hne) as (b & Hb & _ & Hge).
  assert (Hlen : (0 <? List.length (chartData data (Some t)))%nat = true).
  { apply Nat.ltb_lt. destruct (chartData data (Some t)); [destruct Hp | cbn; lia]. }
  exists a, b, x. unfold minL2Norm, maxL2Norm. rewrite Hlen, Hrs.
  repeat split; auto.
  - apply Hle. eapply Hin; eassumption.
  - apply Hge. eapply Hin; eassumption.
  - rewrite chartData_trajectory in Hp. apply trajectory_from_In in Hp.
    destruct Hp as (k & ld & v & Hk & _ & ->). cbn [layer Nat.add].
    apply nth_error_Some. congruence.
Qed.

End CoordinateFacts.

(** The data path, on the real reading of numbers: every point has
    finite coordinates inside the viewport, [x] in
    [padding, width - padding] = [50, 450] and [y] in
    [padding, height - padding] = [50, 250].  Both divisors are at least
    1, so neither scale divides by zero: with a single layer [x] is the
    padding, and when all norms are equal [y] is the baseline,
    [height - padding]. *)
Lemma path_points_in_viewport :
  forall (data : list (list (list R))) (st : HiddenStateExplorerTsx.State)
         (cmd : HiddenStateExplorerTsx.PathCommand) (x y : Js.number),
    let cd := HiddenStateExplorerTsx.chartData data st in
    In (cmd, x, y)
       (HiddenStateExplorerTsx.path
          (HiddenStateExplorerTsx.renderChart (List.length data) cd)) ->
    exists px py dx dy : R,
      Js.Math_max [Js.Num 1; Js.sub (Js.of_nat (List.length data)) (Js.Num 1)]
      = Js.Num dx
      /\ (1 <= dx)%R
      /\ Js.Math_max [Js.Num 1;
                      Js.sub (HiddenStateExplorerTsx.maxL2Norm cd)
                             (HiddenStateExplorerTsx.minL2Norm cd)]
         = Js.Num dy
      /\ (1 <= dy)%R
      /\ x = Js.Num px /\ y = Js.Num py
      /\ (50 <= px <= 450)%R /\ (50 <= py <= 250)%R
      /\ (List.length data = 1 -> px = 50%R)
      /\ (HiddenStateExplorerTsx.maxL2Norm cd = HiddenStateExplorerTsx.minL2Norm cd
          -> py = 250%R).
Proof.
  intros data st cmd x y cd Hin.
  cbn [HiddenStateExplorerTsx.path HiddenStateExplorerTsx.renderChart] in Hin.
  apply mapi_In in Hin. destruct Hin as (i & p & Hp & Heq).
  apply nth_error_In in Hp.
  destruct (chart_bounds data st p Hp) as (a & b & v & Ha & Hb & Hv & Hav & Hlayer).
  fold cd in Ha, Hb. injection Heq as _ -> ->.
  rewrite Ha, Hb, Hv.
  destruct (getX_in_viewport _ _ Hlayer) as (px & dx & Hdx & Hdx1 & Hpx & Hxr & Hx1).
  destruct (getY_in_viewport a b v Hav) as (py & dy & Hdy & Hdy1 & Hpy & Hyr & Hy1).
  exists px, py, dx, dy.
  repeat (split; [assumption|]).
  intros [= Hba]. apply Hy1. congruence.
Qed.


(** ** The circles of the chart *)

Section CircleFacts.
Import Js HiddenStateExplorerTsx Notions.
Local Open Scope R_scope.

Lemma l2normOf_square (v : list R) (n : R) :
  0 <= n -> sum_of_squares v = n * n -> l2normOf v = Num n.
Proof.
  intros Hn Hsq. rewrite l2normOf_sqrt, Hsq. f_equal. now apply sqrt_square.
Qed.

(** [getY] when both bounds of the series are [a]. *)
Lemma getY_level (a x : R) :
  getY (Num a) (Num a) (Num x) = Num (250 - (x - a) * 200).
Proof.
  unfold getY, chartHeight, svgHeight, padding.
  rewrite !mul_Num, !sub_Num, Math_max_pair.
  replace (a - a) with 0 by lra. rewrite Rmax_left by lra.
  rewrite div_Num by lra. rewrite mul_Num, add_Num, sub_Num.
  f_equal. field.
Qed.

(** C7.  On three layers on which the token has the norm 5 (a
    constant-value series) the data path stays on the baseline,
    [y = 250], while the circles of the same chart, whose ordinate is
    [getY(d.layer)], are drawn at [y = 1250], [1050] and [850], outside
    the viewport [50, 250]. *)
Theorem circles_read_the_layer_index :
  let chart :=
    HiddenStateExplorerTsx.renderChart 3
      (HiddenStateExplorerTsx.chartData
         (HiddenStateExplorerTsx.hiddenStateData Samples.level) (Some 0%Z)) in
  map snd (HiddenStateExplorerTsx.path chart)
  = [Js.Num 250; Js.Num 250; Js.Num 250]
  /\ map snd (HiddenStateExplorerTsx.circles chart)
     = [Js.Num 1250; Js.Num 1050; Js.Num 850].
Proof.
  assert (H34 : l2normOf [3; 4] = Num 5)
    by (apply l2normOf_square; [lra | unfold sum_of_squares; cbn [fold_right]; lra]).
  assert (H43 : l2normOf [4; 3] = Num 5)
    by (apply l2normOf_square; [lra | unfold sum_of_squares; cbn [fold_right]; lra]).
  assert (H05 : l2normOf [0; 5] = Num 5)
    by (apply l2normOf_square; [lra | unfold sum_of_squares; cbn [fold_right]; lra]).
  change (chartData (hiddenStateData Samples.level) (Some 0%Z))
    with [ {| layer := 0; l2norm := l2normOf [3; 4] |};
           {| layer := 1; l2norm := l2normOf [4; 3] |};
           {| layer := 2; l2norm := l2normOf [0; 5] |} ].
  rewrite H34, H43, H05.
  assert (Hlo : minL2Norm [ {| layer := 0; l2norm := Num 5 |};
                            {| layer := 1; l2norm := Num 5 |};
                            {| layer := 2; l2norm := Num 5 |} ] = Num 5).
  { unfold minL2Norm. cbn [List.length Nat.ltb Nat.leb map l2norm].
    change (Math_min [Num 5; Num 5; Num 5]) with (Num (Rmin 5 (Rmin 5 5))).
    now rewrite !(Rmin_left 5 5) by lra. }
  assert (Hhi : maxL2Norm [ {| layer := 0; l2norm := Num 5 |};
                            {| layer := 1; l2norm := Num 5 |};
                            {| layer := 2; l2norm := Num 5 |} ] = Num 5).
  { unfold maxL2Norm. cbn [List.length Nat.ltb Nat.leb map l2norm].
    change (Math_max [Num 5; Num 5; Num 5]) with (Num (Rmax 5 (Rmax 5 5))).
    now rewrite !(Rmax_left 5 5) by lra. }
  cbv zeta. unfold renderChart. rewrite Hlo, Hhi.
  cbn [path circles map snd mapi indices seq combine List.length fst layer l2norm].
  unfold of_nat. rewrite !getY_level. cbn [INR].
  split; repeat (f_equal; try lra).
Qed.

End CircleFacts.

(** ** The norm on doubles

    The signs of [val * val], [sum + val * val] and [Math.sqrt], from
    the definitions of the operations. *)

Section Binary64Facts.

Import SpecFloat Binary64 HiddenStateExplorerTsx.
Local Open Scope Z_scope.

Lemma iter_pos_nat {A : Type} (f : A -> A) (p : positive) (x : A) :
  iter_pos f p x = Nat.iter (Pos.to_nat p) f x.
Proof.
  revert x. induction p as [p IH|p IH|]; intros x; simpl iter_pos.
  - rewrite !IH, Pos2Nat.inj_xI.
    replace (S (2 * Pos.to_nat p))%nat
      with (Pos.to_nat p + (Pos.to_nat p + 1))%nat by lia.
    rewrite !Nat.iter_add. reflexivity.
  - rewrite !IH, Pos2Nat.inj_xO.
    replace (2 * Pos.to_nat p)%nat
      with (Pos.to_nat p + Pos.to_nat p)%nat by lia.
    rewrite Nat.iter_add. reflexivity.
  - reflexivity.
Qed.

Lemma shr_1_nonneg (mrs : shr_record) :
  0 <= shr_m mrs -> 0 <= shr_m (shr_1 mrs).
Proof. destruct mrs as [[|[p|p|]|p] r s]; simpl; lia. Qed.

Lemma iter_shr_1_nonneg (n : nat) (mrs : shr_record) :
  0 <= shr_m mrs -> 0 <= shr_m (Nat.iter n shr_1 mrs).
Proof.
  induction n as [|n IH]; intros H; [exact H|].
  simpl. apply shr_1_nonneg, IH, H.
Qed.

Lemma shr_1_pos (n : nat) (mrs : shr_record) :
  2 ^ Z.of_nat (S n) <= shr_m mrs -> 2 ^ Z.of_nat n <= shr_m (shr_1 mrs).
Proof.
  destruct mrs as [m r s]. simpl shr_m. intros H.
  assert (Hpow : 2 ^ Z.of_nat (S n) = 2 * 2 ^ Z.of_nat n).
  { rewrite Nat2Z.inj_succ, Z.pow_succ_r by lia. reflexivity. }
  assert (Hp : 0 < 2 ^ Z.of_nat n) by (apply Z.pow_pos_nonneg; lia).
  destruct m as [|[p|p|]|p]; simpl; lia.
Qed.

Lemma iter_shr_1_pos (n : nat) (mrs : shr_record) :
  2 ^ Z.of_nat n <= shr_m mrs -> 1 <= shr_m (Nat.iter n shr_1 mrs).
Proof.
  revert mrs. induction n as [|n IH]; intros mrs H.
  - exact H.
  - rewrite Nat.iter_succ_r. apply IH, shr_1_pos, H.
Qed.

Lemma digits2_pos_bound (m : positive) :
  2 ^ (Zpos (digits2_pos m) - 1) <= Zpos m.
Proof.
  induction m as [m IH|m IH|]; simpl digits2_pos.
  - rewrite Pos2Z.inj_succ.
    replace (Z.succ (Zpos (digits2_pos m)) - 1)
      with (Z.succ (Zpos (digits2_pos m) - 1)) by lia.
    rewrite Z.pow_succ_r by lia. lia.
  - rewrite Pos2Z.inj_succ.
    replace (Z.succ (Zpos (digits2_pos m)) - 1)
      with (Z.succ (Zpos (digits2_pos m) - 1)) by lia.
    rewrite Z.pow_succ_r by lia. lia.
  - simpl. lia.
Qed.

Lemma shr_record_of_loc_m (m : Z) (l : location) :
  shr_m (shr_record_of_loc m l) = m.
Proof. destruct l as [|[ | | ]]; reflexivity. Qed.

Lemma fexp_ge_emin (e : Z) : emin <= fexp prec emax e.
Proof. unfold fexp, emin. lia. Qed.

(** Shifting to the exponent of the format keeps a mantissa that is not
    negative so, and ends at or above the least exponent. *)
Lemma shr_fexp_nonneg (m e : Z) (l : location) :
  0 <= m ->
  0 <= shr_m (fst (shr_fexp prec emax m e l))
  /\ emin <= snd (shr_fexp prec emax m e l).
Proof.
  intros Hm. unfold shr_fexp, shr.
  pose proof (fexp_ge_emin (Zdigits2 m + e)) as Hf.
  destruct (fexp prec emax (Zdigits2 m + e) - e) as [|p|p] eqn:Hn;
    simpl fst; simpl snd.
  - rewrite shr_record_of_loc_m. lia.
  - split; [|lia].
    rewrite iter_pos_nat. apply iter_shr_1_nonneg.
    rewrite shr_record_of_loc_m. exact Hm.
  - rewrite shr_record_of_loc_m. lia.
Qed.

(** From an exponent at or above the least one, it keeps a positive
    mantissa positive. *)
Lemma shr_fexp_pos (m : positive) (e : Z) (l : location) :
  emin <= e ->
  1 <= shr_m (fst (shr_fexp prec emax (Zpos m) e l)).
Proof.
  intros He. unfold shr_fexp, shr.
  set (d := Zdigits2 (Zpos m)).
  assert (Hd : d = Zpos (digits2_pos m)) by reflexivity.
  destruct (fexp prec emax (d + e) - e) as [|p|p] eqn:Hn; simpl fst.
  - rewrite shr_record_of_loc_m. lia.
  - rewrite iter_pos_nat. apply iter_shr_1_pos.
    rewrite shr_record_of_loc_m, positive_nat_Z.
    assert (Hp : Zpos p <= Zpos (digits2_pos m) - 1).
    { unfold fexp in Hn. unfold emin, SpecFloat.emin in He.
      unfold SpecFloat.emin in Hn. unfold prec in *. lia. }
    pose proof (digits2_pos_bound m) as Hb.
    assert (2 ^ Zpos p <= 2 ^ (Zpos (digits2_pos m) - 1)).
    { apply Z.pow_le_mono_r; lia. }
    lia.
  - rewrite shr_record_of_loc_m. lia.
Qed.

Lemma round_nearest_even_ge (m : Z) (l : location) :
  m <= round_nearest_even m l.
Proof.
  destruct l as [|[ | | ]]; simpl; try lia. destruct (Z.even m); lia.
Qed.

(** Rounding a mantissa that is not negative, with the sign [+]: the
    zero [+0], or a double above zero. *)
Lemma binary_round_aux_nonneg (m e : Z) (l : location) :
  0 <= m ->
  binary_round_aux prec emax false m e l = zero
  \/ above_zero (binary_round_aux prec emax false m e l).
Proof.
  intros Hm. unfold binary_round_aux.
  destruct (shr_fexp_nonneg m e l Hm) as [Hm1 He1].
  destruct (shr_fexp prec emax m e l) as [mrs1 e1].
  simpl fst in Hm1. simpl snd in He1.
  pose proof (round_nearest_even_ge (shr_m mrs1) (loc_of_shr_record mrs1)) as Hr.
  set (m2 := round_nearest_even (shr_m mrs1) (loc_of_shr_record mrs1)) in *.
  destruct (shr_fexp_nonneg m2 e1 loc_Exact ltac:(lia)) as [Hm3 He3].
  destruct (shr_fexp prec emax m2 e1 loc_Exact) as [mrs3 e3].
  simpl fst in Hm3. simpl snd in He3.
  destruct (shr_m mrs3) as [|m3|m3]; [left; reflexivity | right | lia].
  destruct (e3 <=? emax - prec); simpl; [exact He3 | exact I].
Qed.

(** Rounding a positive mantissa from an exponent at or above the least
    one never gives a zero. *)
Lemma binary_round_aux_positive (m : positive) (e : Z) (l : location) :
  emin <= e -> above_zero (binary_round_aux prec emax false (Zpos m) e l).
Proof.
  intros He.
  destruct (binary_round_aux_nonneg (Zpos m) e l ltac:(lia)) as [H|H];
    [exfalso | exact H].
  revert H. unfold binary_round_aux.
  pose proof (shr_fexp_pos m e l He) as Hm1.
  destruct (shr_fexp_nonneg (Zpos m) e l ltac:(lia)) as [_ He1].
  destruct (shr_fexp prec emax (Zpos m) e l) as [mrs1 e1].
  simpl fst in Hm1. simpl snd in He1.
  pose proof (round_nearest_even_ge (shr_m mrs1) (loc_of_shr_record mrs1)) as Hr.
  destruct (round_nearest_even (shr_m mrs1) (loc_of_shr_record mrs1))
    as [|m2|m2] eqn:Hm2; try lia.
  pose proof (shr_fexp_pos m2 e1 loc_Exact He1) as Hm3.
  destruct (shr_fexp prec emax (Zpos m2) e1 loc_Exact) as [mrs3 e3].
  simpl fst in Hm3.
  destruct (shr_m mrs3) as [|m3|m3]; try lia.
  destruct (e3 <=? emax - prec); discriminate.
Qed.

Lemma shl_align_exponent (m : positive) (e e' : Z) :
  emin <= e -> emin <= e' -> emin <= snd (shl_align m e e').
Proof.
  intros He He'. unfold shl_align. destruct (e' - e); simpl; lia.
Qed.

Lemma binary_round_positive (m : positive) (e : Z) :
  emin <= e -> above_zero (binary_round prec emax false m e).
Proof.
  intros He. unfold binary_round.
  pose proof (shl_align_exponent m e
                (fexp prec emax (Zpos (digits2_pos m) + e)) He
                (fexp_ge_emin _)) as H.
  destruct (shl_align m e (fexp prec emax (Zpos (digits2_pos m) + e)))
    as [mz ez]. simpl snd in H.
  apply binary_round_aux_positive, H.
Qed.

(** *** The three operations of the norm *)

Lemma mul_self (x : double) :
  isNaN x = false -> mul x x = zero \/ above_zero (mul x x).
Proof.
  destruct x as [s|s| |s m e]; simpl; intros H; try discriminate.
  - left. destruct s; reflexivity.
  - right. destruct s; exact I.
  - unfold mul, SFmul. replace (xorb s s) with false by (destruct s; reflexivity).
    apply binary_round_aux_nonneg. lia.
Qed.

Lemma mul_zero (x : double) : eqb x zero = true -> mul x x = zero.
Proof.
  destruct x as [s|[|]| |[|] m e]; intros H; try discriminate H.
  destruct s; reflexivity.
Qed.

Lemma add_zero_l (y : double) :
  y = zero \/ above_zero y -> add zero y = y.
Proof.
  intros [->|H]; [reflexivity|].
  destruct y as [s|[|]| |[|] m e]; simpl in H; try contradiction; reflexivity.
Qed.

Lemma add_zero_r (x : double) :
  above_zero x -> add x zero = x.
Proof.
  intros H.
  destruct x as [s|[|]| |[|] m e]; simpl in H; try contradiction; reflexivity.
Qed.

Lemma add_above_zero (x y : double) :
  above_zero x -> above_zero y -> above_zero (add x y).
Proof.
  intros Hx Hy.
  destruct x as [sx|[|]| |[|] mx ex]; simpl in Hx; try contradiction;
    destruct y as [sy|[|]| |[|] my ey]; simpl in Hy; try contradiction;
    try exact I.
  unfold add, SFadd. simpl cond_Zopp.
  change (Zpos (fst (shl_align mx ex (Z.min ex ey)))
          + Zpos (fst (shl_align my ey (Z.min ex ey))))
    with (Zpos (fst (shl_align mx ex (Z.min ex ey))
                + fst (shl_align my ey (Z.min ex ey)))).
  simpl binary_normalize. apply binary_round_positive. lia.
Qed.

Lemma sqrt_above_zero (x : double) :
  above_zero x -> above_zero (Math_sqrt x).
Proof.
  intros Hx.
  destruct x as [sx|[|]| |[|] mx ex]; simpl in Hx; try contradiction;
    try exact I.
  unfold Math_sqrt, SFsqrt, SFsqrt_core_binary.
  set (e' := Z.min (fexp prec emax (Z.div2 (Zdigits2 (Zpos mx) + ex + 1)))
                   (Z.div2 ex)).
  assert (He' : emin <= e').
  { pose proof (fexp_ge_emin (Z.div2 (Zdigits2 (Zpos mx) + ex + 1))) as Hf.
    assert (emin <= Z.div2 ex).
    { rewrite Z.div2_div. unfold emin, SpecFloat.emin, prec, emax in Hx |- *.
      clear - Hx. apply Z.div_le_lower_bound; lia. }
    unfold e'. lia. }
  assert (Hs : 0 <= ex - 2 * e').
  { assert (2 * Z.div2 ex <= ex).
    { rewrite Z.div2_div. apply Z.mul_div_le. lia. }
    unfold e'. lia. }
  set (m' := match ex - 2 * e' with
             | 0 => Zpos mx
             | Zpos _ => Z.shiftl (Zpos mx) (ex - 2 * e')
             | Zneg _ => 0
             end).
  assert (Hm' : 1 <= m').
  { unfold m'. destruct (ex - 2 * e') as [|p|p] eqn:Hp; try lia.
    rewrite Z.shiftl_mul_pow2 by lia.
    assert (0 < 2 ^ Zpos p) by (apply Z.pow_pos_nonneg; lia). nia. }
  pose proof (Z.sqrtrem_spec m' ltac:(lia)) as Hspec.
  destruct (Z.sqrtrem m') as [q r].
  destruct q as [|q|q]; try lia.
  apply binary_round_aux_positive, He'.
Qed.

Lemma above_zero_eqb (x : double) : above_zero x -> eqb x zero = false.
Proof.
  destruct x as [s|[|]| |[|] m e]; simpl; intros H; try contradiction;
    reflexivity.
Qed.

Lemma above_zero_leb (x : double) : above_zero x -> leb zero x = true.
Proof.
  destruct x as [s|[|]| |[|] m e]; simpl; intros H; try contradiction;
    reflexivity.
Qed.

(** *** The sum of the squares *)

Lemma sum_above_zero (v : list double) (acc : double) :
  (forall x, In x v -> isNaN x = false) ->
  above_zero acc ->
  above_zero (fold_left (fun sum val => add sum (mul val val)) v acc).
Proof.
  revert acc. induction v as [|x v IH]; intros acc Hv Hacc; [exact Hacc|].
  cbn [fold_left]. apply IH; [intros y Hy; apply Hv; right; exact Hy|].
  destruct (mul_self x (Hv x (or_introl eq_refl))) as [->|Hx].
  - rewrite add_zero_r by exact Hacc. exact Hacc.
  - apply add_above_zero; assumption.
Qed.

(** From [+0] the sum stays [+0] while the squares are [+0], and is above
    zero from the first square that is. *)
Lemma sum_from_zero (v : list double) :
  (forall x, In x v -> isNaN x = false) ->
  (fold_left (fun sum val => add sum (mul val val)) v zero = zero
   /\ forall x, In x v -> mul x x = zero)
  \/ (above_zero (fold_left (fun sum val => add sum (mul val val)) v zero)
      /\ exists x, In x v /\ above_zero (mul x x)).
Proof.
  induction v as [|x v IH]; intros Hv.
  - left. split; [reflexivity | intros x []].
  - cbn [fold_left].
    destruct (mul_self x (Hv x (or_introl eq_refl))) as [Hx|Hx].
    + rewrite Hx. change (add zero zero) with zero.
      destruct (IH (fun y Hy => Hv y (or_intror Hy)))
        as [[Hs Hall]|[Hs [y [Hy Hpos]]]].
      * left. split; [exact Hs|].
        intros y [<-|Hy]; [exact Hx | apply Hall, Hy].
      * right. split; [exact Hs|].
        exists y. split; [right; exact Hy | exact Hpos].
    + right. rewrite add_zero_l by (right; exact Hx). split.
      * apply sum_above_zero;
          [intros y Hy; apply Hv; right; exact Hy | exact Hx].
      * exists x. split; [left; reflexivity | exact Hx].
Qed.

Lemma sum_NaN (v : list double) (acc : double) :
  isNaN acc = true ->
  isNaN (fold_left (fun sum val => add sum (mul val val)) v acc) = true.
Proof.
  revert acc. induction v as [|x v IH]; intros acc Hacc; [exact Hacc|].
  cbn [fold_left]. apply IH. destruct acc; try discriminate. reflexivity.
Qed.

Lemma sum_with_NaN (v : list double) (acc x : double) :
  In x v -> isNaN x = true ->
  isNaN (fold_left (fun sum val => add sum (mul val val)) v acc) = true.
Proof.
  revert acc. induction v as [|y v IH]; intros acc [] Hx.
  - subst y. cbn [fold_left]. apply sum_NaN. destruct x; try discriminate.
    destruct acc; reflexivity.
  - cbn [fold_left]. apply IH; assumption.
Qed.

(** The norm of a vector without [NaN]: [+0] when every square is [+0],
    above zero when one square is. *)
Lemma l2norm64_cases (v : list double) :
  (forall x, In x v -> isNaN x = false) ->
  (l2norm64 v = zero /\ forall x, In x v -> mul x x = zero)
  \/ (above_zero (l2norm64 v) /\ exists x, In x v /\ above_zero (mul x x)).
Proof.
  intros Hv. unfold l2norm64.
  destruct (sum_from_zero v Hv) as [[Hs Hall]|[Hs Hex]].
  - left. rewrite Hs. split; [reflexivity | exact Hall].
  - right. split; [apply sqrt_above_zero, Hs | exact Hex].
Qed.

End Binary64Facts.

(** C9, as the specification has it, fails on the vector [[1e-200]]:
    its one component is a double that is not zero, its square underflows
    to zero, and the norm computed is [0]. *)
Lemma underflow_norm_counterexample :
  SpecFloat.valid_binary Binary64.prec Binary64.emax Binary64.tiny = true
  /\ Binary64.eqb Binary64.tiny Binary64.zero = false
  /\ Binary64.eqb (HiddenStateExplorerTsx.l2norm64 [Binary64.tiny])
                   Binary64.zero
     = true.
Proof. repeat split; vm_compute; reflexivity. Qed.

(** C9, amended.  On doubles, for every vector none of whose components
    is [NaN]: the norm computed is [>= 0]; it is [== 0] exactly when the
    square [v[d] * v[d]] of every component is [== 0], which is so when
    every component is [0], and also when a component that is not zero
    is so small that its square underflows.  A [NaN] among the
    components makes the norm [NaN].  The vectors [[1, 0]], [[3, 4]] and
    [[0, 0]] have the norms [1], [5] and [0]. *)
Theorem l2norm64_nonneg_zero_iff_squares :
  (forall v : list Binary64.double,
     (forall x, In x v -> Binary64.isNaN x = false) ->
     Binary64.leb Binary64.zero (HiddenStateExplorerTsx.l2norm64 v) = true
     /\ (Binary64.eqb (HiddenStateExplorerTsx.l2norm64 v) Binary64.zero = true
         <-> forall x, In x v ->
                       Binary64.eqb (Binary64.mul x x) Binary64.zero = true)
     /\ ((forall x, In x v -> Binary64.eqb x Binary64.zero = true) ->
         Binary64.eqb (HiddenStateExplorerTsx.l2norm64 v) Binary64.zero
         = true))
  /\ (forall (v : list Binary64.double) (x : Binary64.double),
        In x v -> Binary64.isNaN x = true ->
        Binary64.isNaN (HiddenStateExplorerTsx.l2norm64 v) = true)
  /\ HiddenStateExplorerTsx.l2norm64 [Binary64.of_Z 1; Binary64.of_Z 0]
     = Binary64.of_Z 1
  /\ HiddenStateExplorerTsx.l2norm64 [Binary64.of_Z 3; Binary64.of_Z 4]
     = Binary64.of_Z 5
  /\ HiddenStateExplorerTsx.l2norm64 [Binary64.of_Z 0; Binary64.of_Z 0]
     = Binary64.of_Z 0.
Proof.
  split; [|split; [|repeat split; vm_compute; reflexivity]].
  - intros v Hv.
    destruct (l2norm64_cases v Hv) as [[Hn Hall]|[Hn [x [Hx Hpos]]]].
    + rewrite Hn. split; [reflexivity|]. split; [|intros _; reflexivity].
      split; [|intros _; reflexivity].
      intros _ y Hy. rewrite (Hall y Hy). reflexivity.
    + split; [apply above_zero_leb, Hn|].
      rewrite (above_zero_eqb _ Hn). split.
      * split; [discriminate|]. intros Hall.
        rewrite <- (Hall x Hx). symmetry. apply above_zero_eqb, Hpos.
      * intros Hall. rewrite (mul_zero x (Hall x Hx)) in Hpos. contradiction.
  - intros v x Hx Hnan. unfold HiddenStateExplorerTsx.l2norm64.
    pose proof (sum_with_NaN v Binary64.zero x Hx Hnan) as H.
    destruct (fold_left _ v Binary64.zero); try discriminate. reflexivity.
Qed.

(** The amended C9 on the vector [[3, 4]]. *)
Lemma l2norm64_nonneg_zero_iff_squares_witness :
  (forall x, In x [Binary64.of_Z 3; Binary64.of_Z 4] ->
             Binary64.isNaN x = false)
  /\ Binary64.leb Binary64.zero
       (HiddenStateExplorerTsx.l2norm64 [Binary64.of_Z 3; Binary64.of_Z 4])
     = true
  /\ (Binary64.eqb
        (HiddenStateExplorerTsx.l2norm64 [Binary64.of_Z 3; Binary64.of_Z 4])
        Binary64.zero = true
      <-> forall x, In x [Binary64.of_Z 3; Binary64.of_Z 4] ->
                    Binary64.eqb (Binary64.mul x x) Binary64.zero = true).
Proof.
  assert (H : forall x, In x [Binary64.of_Z 3; Binary64.of_Z 4] ->
                        Binary64.isNaN x = false).
  { intros x [<-|[<-|[]]]; reflexivity. }
  split; [exact H|].
  destruct (proj1 l2norm64_nonneg_zero_iff_squares
              [Binary64.of_Z 3; Binary64.of_Z 4] H) as (Hle & Hiff & _).
  split; [exact Hle | exact Hiff].
Defined.

(** ** The page *)

Section PageFacts.
Import Js PageTsx HomeTsx PageEvents Notions.

(** A settling request writes the result slot, whatever the page holds,
    and ends the loading. *)
Lemma handleSubmit_resume_results (o : FetchOutcome) (st : State) :
  results (handleSubmit_resume o st) = dataOf o
  /\ isLoading (handleSubmit_resume o st) = false.
Proof.
  unfold handleSubmit_resume, dataOf.
  destruct (handleSubmit_try o); split; reflexivity.
Qed.

Lemma is_inflight_single (id n : nat) (w : World) :
  inflight w = [n] -> is_inflight id w = true -> id = n.
Proof.
  unfold is_inflight. intros ->. cbn. rewrite orb_false_r.
  apply Nat.eqb_eq.
Qed.

(** A loading page renders: the analysis block is not selected. *)
Lemma loading_renders (st : State) : isLoading st = true -> renders st = true.
Proof.
  intros H. unfold renders, Home, resultsSection. cbn [analysis].
  rewrite H. reflexivity.
Qed.

(** The page is mounted exactly while its state renders. *)
Lemma step_mounted (w : World) (ev : Event) :
  mounted w = renders (page w) ->
  mounted (step w ev) = renders (page (step w ev)).
Proof.
  intros Hm. destruct ev as [|id o]; cbn [step].
  - destruct (mounted w) eqn:E; [reflexivity | rewrite E; exact Hm].
  - destruct (is_inflight id w); [|exact Hm]. cbn [page mounted].
    destruct (mounted w); [reflexivity|]. cbn. exact Hm.
Qed.

(** One step under the gate keeps the page at one request at a time,
    its result slot holding what the latest request delivered. *)
Lemma gated_step (w : World) (ev : Event) :
  mounted w = renders (page w) ->
  one_at_a_time w -> shows_latest w ->
  match ev with
  | Submit => mounted w && negb (submitDisabled (page w))
  | Settle _ _ => true
  end = true ->
  one_at_a_time (step w ev) /\ shows_latest (step w ev).
Proof.
  intros Hm Hone Hshow Hgate. destruct ev as [|id o].
  - (* submit: from a mounted page that is not loading *)
    apply andb_true_iff in Hgate. destruct Hgate as [Hmounted Hgate].
    apply negb_true_iff in Hgate. unfold submitDisabled in Hgate.
    destruct Hone as [(Hload & _) | (_ & Hnone)]; [congruence|].
    cbn [step]. rewrite Hmounted. split.
    + left. cbn. rewrite Hnone. repeat split; try reflexivity; try lia.
      now rewrite Nat.sub_0_r.
    + intros data. cbn. discriminate.
  - cbn [step]. destruct (is_inflight id w) eqn:Hin; [|auto].
    destruct Hone as [(Hload & Hfl & Hpos & _) | (_ & Hnone)].
    + pose proof (is_inflight_single _ _ _ Hfl Hin) as ->.
      rewrite Hm, (loading_renders _ Hload).
      destruct (handleSubmit_resume_results o (page w)) as [Hres Hidle].
      split.
      * right. cbn. split; [exact Hidle|].
        rewrite Hfl. cbn. now rewrite Nat.eqb_refl.
      * intros data. cbn. rewrite Hres. intros Hdata.
        exists o. split; [|exact Hdata].
        apply in_or_app. right. left. reflexivity.
    + unfold is_inflight in Hin. rewrite Hnone in Hin. discriminate.
Qed.

Lemma gated_run (trace : list Event) :
  forall w : World,
    mounted w = renders (page w) ->
    one_at_a_time w -> shows_latest w -> gated w trace = true ->
    one_at_a_time (run trace w) /\ shows_latest (run trace w).
Proof.
  induction trace as [|ev trace IH]; intros w Hm Hone Hshow Hgated.
  - cbn. auto.
  - cbn [gated] in Hgated. apply andb_true_iff in Hgated.
    destruct Hgated as [Hev Hrest].
    destruct (gated_step w ev Hm Hone Hshow Hev) as [Hone' Hshow'].
    cbn [run fold_left]. apply IH; try assumption.
    apply step_mounted, Hm.
Qed.

End PageFacts.

(** C3, as the specification has it, fails on the trace [overtaken].  A
    first request is issued; a second submit event, dispatched while the
    button is disabled, issues a second one; then the first request
    delivers ["first"].  Nothing discards it: [setResults] stores
    ["first"] while the request issued last is still in flight.  (The
    render of that state then stops at line 129, where [activeTab] is not
    declared.) *)
Lemma stale_response_counterexample :
  let w := PageEvents.run Samples.overtaken PageEvents.initialWorld in
  PageEvents.issued w = 2
  /\ PageEvents.inflight w = [1]
  /\ PageEvents.settled w = [ (0, Samples.delivers Samples.first_analysis) ]
  /\ PageTsx.results (PageEvents.page w) = Some Samples.first_analysis
  /\ HomeTsx.Home (PageEvents.page w)
     = Js.Throw (Js.ReferenceError "activeTab is not defined")
  /\ ~ Notions.shows_latest w.
Proof.
  cbv zeta.
  split; [reflexivity|]. split; [reflexivity|]. split; [reflexivity|].
  split; [reflexivity|]. split; [reflexivity|].
  intros Hshow.
  destruct (Hshow Samples.first_analysis eq_refl) as (o & Hin & Hdata).
  cbn in Hin. destruct Hin as [Hin | []]. discriminate.
Qed.

(** C3, amended.  [handleSubmit] keeps no request counter and discards
    nothing: on a mounted page, a request that settles writes what it
    delivered into the result slot, whatever was issued since.  What the
    page has is the gate of the form, whose submit button is disabled
    while [isLoading] holds.  On every trace whose submit events pass
    that gate, at most one request is in flight, the one issued last,
    and a result set held in the result slot is the one that request
    delivered. *)
Theorem gated_submit_shows_latest :
  (forall (w : PageEvents.World) (id : nat) (o : PageTsx.FetchOutcome),
      PageEvents.mounted w = true ->
      PageEvents.is_inflight id w = true ->
      PageTsx.results
        (PageEvents.page (PageEvents.step w (PageEvents.Settle id o)))
      = PageTsx.dataOf o)
  /\ forall trace : list PageEvents.Event,
       PageEvents.gated PageEvents.initialWorld trace = true ->
       Notions.one_at_a_time (PageEvents.run trace PageEvents.initialWorld)
       /\ Notions.shows_latest (PageEvents.run trace PageEvents.initialWorld).
Proof.
  split.
  - intros w id o Hm Hin. cbn [PageEvents.step]. rewrite Hin, Hm.
    cbn [PageEvents.page]. apply handleSubmit_resume_results.
  - intros trace Hgated. apply gated_run; [| | |exact Hgated].
    + reflexivity.
    + right. split; reflexivity.
    + intros data. cbn. discriminate.
Qed.

(** The amended C3 on a request that fails and a second one, issued
    from the enabled form, that delivers: the result slot holds what the
    second delivered. *)
Lemma gated_submit_shows_latest_witness :
  PageEvents.gated PageEvents.initialWorld Samples.retried = true
  /\ PageTsx.results
       (PageEvents.page (PageEvents.run Samples.retried PageEvents.initialWorld))
     = Some Samples.second_analysis
  /\ Notions.shows_latest
       (PageEvents.run Samples.retried PageEvents.initialWorld).
Proof.
  split; [reflexivity|]. split; [reflexivity|].
  apply (proj2 gated_submit_shows_latest Samples.retried). reflexivity.
Defined.

(** ** What [simpleTokenize] keeps and what it cuts *)

Section SplitFacts.
Import Tokenizer Notions.

Lemma chars_length (s : string) : List.length (chars s) = String.length s.
Proof. unfold chars. induction s as [|c s IH]; cbn; congruence. Qed.

Lemma chars_get (s : string) :
  forall i : nat, String.get i s = nth_error (chars s) i.
Proof.
  unfold chars. induction s as [|c s IH]; intros [|i]; cbn; auto.
Qed.

Lemma chars_substring (s : string) :
  forall n m : nat, chars (substring n m s) = firstn m (skipn n (chars s)).
Proof.
  unfold chars. induction s as [|c s IH]; intros n m.
  - destruct n, m; reflexivity.
  - destruct n as [|n].
    + destruct m as [|m]; [reflexivity|].
      cbn. f_equal. apply (IH 0 m).
    + cbn. apply IH.
Qed.

Lemma chars_suffix (str : string) (q : nat) :
  chars (suffix str q) = skipn q (chars str).
Proof.
  unfold suffix. rewrite chars_substring. apply firstn_all2.
  rewrite length_skipn, chars_length. lia.
Qed.

(** The run that [\s+] takes is white space, and ends the string or
    stops at a visible code unit. *)
Lemma span_ws_spec (s : string) :
  span_ws s <= List.length (chars s)
  /\ filter visible (chars s) = filter visible (skipn (span_ws s) (chars s))
  /\ (span_ws s = 0 ->
      forall c, nth_error (chars s) 0 = Some c -> isWhiteSpace c = false).
Proof.
  unfold chars. induction s as [|c s (Hle & Hfilter & Hzero)].
  - cbn. repeat split; auto. intros _ c [=].
  - cbn [span_ws list_ascii_of_string]. destruct (isWhiteSpace c) eqn:Hc.
    + split; [cbn; lia|]. split; [|discriminate].
      cbn [filter skipn]. unfold visible at 1. rewrite Hc. cbn [negb].
      exact Hfilter.
    + split; [lia|]. split; [reflexivity|]. intros _ c' [= <-]. exact Hc.
Qed.

Lemma skipn_nth_cons {A : Type} (l : list A) (q : nat) (c : A) :
  nth_error l q = Some c -> skipn q l = c :: skipn (S q) l.
Proof.
  revert l. induction q as [|q IH]; intros [|x l] H; try discriminate.
  - cbn in H. injection H as ->. reflexivity.
  - cbn in H. apply IH in H. exact H.
Qed.

Lemma firstn_snoc_nth {A : Type} (l : list A) (p q : nat) (c : A) :
  p <= q -> nth_error l q = Some c ->
  firstn (S q - p) (skipn p l) = firstn (q - p) (skipn p l) ++ [c].
Proof.
  intros Hpq Hc.
  assert (Hq : nth_error (skipn p l) (q - p) = Some c).
  { rewrite nth_error_skipn. replace (p + (q - p)) with q by lia. exact Hc. }
  replace (S q - p) with (S (q - p)) by lia.
  generalize dependent (skipn p l). generalize (q - p). clear.
  intros n. induction n as [|n IH]; intros [|x m] H; try discriminate.
  - cbn in H. injection H as ->. reflexivity.
  - cbn in H. cbn. f_equal. apply IH, H.
Qed.

(** What the separator tells about the code unit it is tried at. *)
Lemma separator_exec_none (str : string) (q : nat) (c : ascii) :
  nth_error (chars str) q = Some c ->
  separator_exec str q = None ->
  isWhiteSpace c = false /\ isPunct c = false
  /\ (0 < q -> forall b, nth_error (chars str) (q - 1) = Some b ->
               isPunct b = false).
Proof.
  intros Hc. unfold separator_exec.
  destruct (span_ws_spec (suffix str q)) as (_ & _ & Hzero).
  destruct (span_ws (suffix str q)) as [|k]; [|discriminate].
  unfold punct_at. rewrite !chars_get, Hc.
  destruct (isPunct c); [discriminate|].
  intros H. split.
  - apply (Hzero eq_refl). rewrite chars_suffix, nth_error_skipn, Nat.add_0_r.
    exact Hc.
  - split; [reflexivity|]. intros Hq b Hb. rewrite Hb in H.
    destruct (0 <? q) eqn:Hq'; [|apply Nat.ltb_ge in Hq'; lia].
    cbn in H. destruct (isPunct b); [discriminate | reflexivity].
Qed.

Lemma separator_exec_some (str : string) (q e : nat) (c : ascii) :
  nth_error (chars str) q = Some c ->
  separator_exec str q = Some e ->
  q <= e <= String.length str
  /\ filter visible (skipn q (chars str)) = filter visible (skipn e (chars str))
  /\ (e = q -> isWhiteSpace c = false).
Proof.
  intros Hc. unfold separator_exec.
  assert (Hq : q < String.length str).
  { rewrite <- chars_length. apply nth_error_Some. congruence. }
  destruct (span_ws_spec (suffix str q)) as (Hle & Hfilter & Hzero).
  rewrite chars_suffix in Hle, Hfilter, Hzero.
  rewrite length_skipn, chars_length in Hle.
  rewrite skipn_skipn in Hfilter.
  destruct (span_ws (suffix str q)) as [|k].
  - assert (Hvis : isWhiteSpace c = false).
    { apply (Hzero eq_refl). rewrite nth_error_skipn, Nat.add_0_r. exact Hc. }
    intros H. assert (e = q) as ->.
    { destruct (punct_at str q); [congruence|].
      destruct ((0 <? q) && punct_at str (q - 1)); congruence. }
    repeat split; auto; lia.
  - intros [= <-]. split; [lia|]. split; [|lia].
    rewrite Hfilter. f_equal. f_equal. lia.
Qed.

(** The pieces the loop of [split] cuts from [p] on. *)
Lemma split_loop_pieces (fuel : nat) :
  forall (str : string) (p q : nat) (A R : list string),
    p <= q <= String.length str ->
    well_cut (substring p (q - p) str) ->
    split_loop fuel str p q A = Some R ->
    exists P : list string,
      R = A ++ P
      /\ Forall well_cut P
      /\ flat_map chars P
         = firstn (q - p) (skipn p (chars str))
           ++ filter visible (skipn q (chars str)).
Proof.
  induction fuel as [|fuel IH]; intros str p q A R Hpq Hcur.
  - cbn [split_loop]. destruct (String.length str <=? q) eqn:Hend; [|discriminate].
    apply Nat.leb_le in Hend. assert (q = String.length str) as -> by lia.
    intros [= <-]. exists [substring p (String.length str - p) str].
    split; [reflexivity|]. split; [constructor; [exact Hcur | constructor]|].
    assert (Hnil : skipn (String.length str) (chars str) = [])
      by (apply skipn_all2; rewrite chars_length; lia).
    rewrite Hnil. cbn [flat_map filter]. now rewrite chars_substring.
  - cbn [split_loop]. destruct (String.length str <=? q) eqn:Hend.
    { apply Nat.leb_le in Hend. assert (q = String.length str) as -> by lia.
      intros [= <-]. exists [substring p (String.length str - p) str].
      split; [reflexivity|]. split; [constructor; [exact Hcur | constructor]|].
      assert (Hnil : skipn (String.length str) (chars str) = [])
        by (apply skipn_all2; rewrite chars_length; lia).
      rewrite Hnil. cbn [flat_map filter]. now rewrite chars_substring. }
    apply Nat.leb_gt in Hend.
    destruct (nth_error (chars str) q) as [c|] eqn:Hc;
      [|apply nth_error_None in Hc; rewrite chars_length in Hc; lia].
    (* moving one position right, over a visible code unit *)
    assert (Hadvance :
              isWhiteSpace c = false ->
              well_cut (substring p (q + 1 - p) str) ->
              split_loop fuel str p (q + 1) A = Some R ->
              exists P : list string,
                R = A ++ P /\ Forall well_cut P
                /\ flat_map chars P
                   = firstn (q - p) (skipn p (chars str))
                     ++ filter visible (skipn q (chars str))).
    { intros Hvis Hcut Hrun.
      destruct (IH str p (q + 1) A R ltac:(lia) Hcut Hrun) as (P & HR & HP & Hflat).
      exists P. split; [exact HR|]. split; [exact HP|].
      rewrite Hflat, (skipn_nth_cons _ _ _ Hc). cbn [filter].
      unfold visible at 2. rewrite Hvis. cbn [negb].
      replace (q + 1) with (S q) by lia.
      rewrite (firstn_snoc_nth _ p q c) by (lia || exact Hc).
      now rewrite <- app_assoc. }
    assert (Hone : isWhiteSpace c = false -> q = p ->
                   well_cut (substring p (q + 1 - p) str)).
    { intros Hvis ->. unfold well_cut. rewrite chars_substring.
      replace (p + 1 - p) with 1 by lia.
      rewrite (skipn_nth_cons _ _ _ Hc). cbn [firstn].
      split; [repeat constructor; exact Hvis | left; cbn; lia]. }
    destruct (separator_exec str q) as [e0|] eqn:Hexec.
    + destruct (separator_exec_some _ _ _ _ Hc Hexec) as (He & Hfilter & Hempty).
      rewrite Nat.min_l by lia.
      destruct (e0 =? p) eqn:Hep.
      * apply Nat.eqb_eq in Hep. assert (e0 = q) by lia. assert (q = p) by lia.
        intros Hrun. apply Hadvance; auto.
      * apply Nat.eqb_neq in Hep. intros Hrun.
        destruct (IH str e0 e0 (A ++ [substring p (q - p) str]) R)
          as (P & HR & HP & Hflat); [lia | | exact Hrun |].
        { rewrite Nat.sub_diag. unfold well_cut. rewrite chars_substring.
          cbn. split; [constructor | left; lia]. }
        exists (substring p (q - p) str :: P).
        split; [rewrite HR, <- app_assoc; reflexivity|].
        split; [constructor; assumption|].
        cbn [flat_map]. rewrite Hflat, Nat.sub_diag, chars_substring, Hfilter.
        reflexivity.
    + destruct (separator_exec_none _ _ _ Hc Hexec) as (Hvis & Hpunct & Hbehind).
      intros Hrun. apply Hadvance; auto.
      destruct (Nat.eq_dec q p) as [Hqp|Hqp]; [auto|].
      destruct Hcur as [Hws Hpct]. unfold well_cut.
      rewrite chars_substring in *.
      replace (q + 1 - p) with (S q - p) by lia.
      rewrite (firstn_snoc_nth _ p q c) by (lia || exact Hc).
      split; [apply Forall_app; split; [exact Hws | repeat constructor; exact Hvis]|].
      right. apply Forall_app. split; [|repeat constructor; exact Hpunct].
      destruct Hpct as [Hshort|Hfree]; [|exact Hfree].
      (* a piece of one code unit: the lookbehind has just failed on it *)
      assert (Hlen : List.length (firstn (q - p) (skipn p (chars str))) = q - p).
      { rewrite length_firstn, length_skipn, chars_length. lia. }
      assert (q - p = 1) by lia.
      assert (Hb : exists b, nth_error (chars str) (q - 1) = Some b).
      { destruct (nth_error (chars str) (q - 1)) eqn:E; [eauto|].
        apply nth_error_None in E. rewrite chars_length in E. lia. }
      destruct Hb as [b Hb].
      replace (q - p) with 1 by lia.
      replace p with (q - 1) by lia.
      rewrite (skipn_nth_cons _ _ _ Hb). cbn [firstn].
      repeat constructor. apply (Hbehind ltac:(lia) b Hb).
Qed.

End SplitFacts.

Section TokenFacts.
Import Tokenizer Notions.

(** On a string that is not empty, [split] cuts well, and loses white
    space only. *)
Lemma split_pieces (text : string) :
  String.length text <> 0 ->
  Forall well_cut (split text)
  /\ flat_map chars (split text) = filter visible (chars text).
Proof.
  intros Hlen. unfold split.
  destruct (String.length text =? 0) eqn:E; [apply Nat.eqb_eq in E; lia|].
  destruct (split_returns text) as [R HR]. rewrite HR.
  destruct (split_loop_pieces (split_fuel text) text 0 0 [] R) as (P & -> & HP & Hflat);
    [lia | | exact HR |].
  - unfold well_cut. rewrite chars_substring. cbn. split; [constructor | left; lia].
  - cbn [app]. split; [exact HP|]. rewrite Hflat. reflexivity.
Qed.

Lemma dropWhile_none {A : Type} (f : A -> bool) (l : list A) :
  Forall (fun x => f x = false) l -> dropWhile f l = l.
Proof.
  intros H. destruct H as [|x l Hx _]; [reflexivity|].
  cbn. now rewrite Hx.
Qed.

(** [trim] leaves a string without white space as it is. *)
Lemma trim_visible (s : string) :
  Forall (fun c => isWhiteSpace c = false) (chars s) -> trim s = s.
Proof.
  intros H. unfold trim. fold (chars s).
  rewrite (dropWhile_none _ _ H), dropWhile_none.
  - rewrite rev_involutive. apply string_of_list_ascii_of_string.
  - apply Forall_rev, H.
Qed.

Lemma nonblank_well_cut (piece : string) :
  well_cut piece -> nonblank piece = negb (String.eqb piece EmptyString).
Proof.
  intros [Hws _]. unfold nonblank. now rewrite (trim_visible _ Hws).
Qed.

Lemma filter_nonblank_chars (P : list string) :
  Forall well_cut P ->
  flat_map chars (filter nonblank P) = flat_map chars P.
Proof.
  induction 1 as [|piece P Hpiece _ IH]; [reflexivity|].
  cbn [filter flat_map]. rewrite (nonblank_well_cut _ Hpiece).
  destruct (String.eqb_spec piece EmptyString) as [->|_]; cbn [negb].
  - exact IH.
  - cbn [flat_map]. now rewrite IH.
Qed.

(** The tokens are the pieces of [split] that are not empty. *)
Lemma simpleTokenize_tokens (text token : string) :
  In token (AttentionViewerTsx.simpleTokenize text) ->
  well_cut token /\ token <> EmptyString.
Proof.
  unfold AttentionViewerTsx.simpleTokenize, falsy.
  destruct (String.length text =? 0) eqn:E; [intros []|].
  apply Nat.eqb_neq in E. destruct (split_pieces text E) as [HP _].
  intros Hin. apply filter_In in Hin. destruct Hin as [Hin Hnb].
  rewrite Forall_forall in HP. specialize (HP token Hin).
  split; [exact HP|]. rewrite (nonblank_well_cut _ HP) in Hnb.
  intros ->. discriminate.
Qed.

Lemma simpleTokenize_chars (text : string) :
  flat_map chars (AttentionViewerTsx.simpleTokenize text)
  = filter visible (chars text).
Proof.
  unfold AttentionViewerTsx.simpleTokenize, falsy.
  destruct (String.length text =? 0) eqn:E.
  - apply Nat.eqb_eq in E. destruct text; [reflexivity | discriminate].
  - apply Nat.eqb_neq in E. destruct (split_pieces text E) as [HP Hflat].
    now rewrite (filter_nonblank_chars _ HP).
Qed.

End TokenFacts.

(** X1.  A display token is never empty and holds no white space. *)
Theorem tokens_hold_no_white_space :
  forall text token : string,
    In token (AttentionViewerTsx.simpleTokenize text) ->
    token <> EmptyString
    /\ Forall (fun c => Tokenizer.isWhiteSpace c = false) (Notions.chars token).
Proof.
  intros text token Hin.
  destruct (simpleTokenize_tokens text token Hin) as [[Hws _] Hne]. auto.
Qed.

Lemma tokens_hold_no_white_space_witness :
  "world"%string <> EmptyString
  /\ Forall (fun c => Tokenizer.isWhiteSpace c = false)
            (Notions.chars "world").
Proof.
  apply (tokens_hold_no_white_space "Hello, world!" "world").
  vm_compute. auto.
Defined.

(** X2.  A punctuation mark of [. , ; : ! ?] is a token of its own: a
    display token is one punctuation mark, or holds none. *)
Theorem punctuation_stands_alone :
  forall text token : string,
    In token (AttentionViewerTsx.simpleTokenize text) ->
    (exists c, token = String c EmptyString /\ Tokenizer.isPunct c = true)
    \/ Forall (fun c => Tokenizer.isPunct c = false) (Notions.chars token).
Proof.
  intros text token Hin.
  destruct (simpleTokenize_tokens text token Hin) as [[_ Hpunct] Hne].
  destruct Hpunct as [Hshort | Hfree]; [|right; exact Hfree].
  destruct token as [|c [|c' rest]]; [congruence | | cbn in Hshort; lia].
  destruct (Tokenizer.isPunct c) eqn:Hc.
  - left. exists c. auto.
  - right. repeat constructor. exact Hc.
Qed.

Lemma punctuation_stands_alone_witness :
  (exists c, ","%string = String c EmptyString /\ Tokenizer.isPunct c = true)
  \/ Forall (fun c => Tokenizer.isPunct c = false) (Notions.chars ",").
Proof.
  apply (punctuation_stands_alone "Hello, world!" ",").
  vm_compute. auto.
Defined.

(** X3.  Tokenizing loses white space and nothing else: the code units
    of the tokens, in order, are the code units of the text that are not
    white space. *)
Theorem tokens_keep_visible_text :
  forall text : string,
    flat_map Notions.chars (AttentionViewerTsx.simpleTokenize text)
    = filter Notions.visible (Notions.chars text).
Proof. exact simpleTokenize_chars. Qed.

(** X4.  A prompt has no display token exactly when it is empty or all
    white space. *)
Theorem no_token_iff_blank :
  forall text : string,
    AttentionViewerTsx.simpleTokenize text = []
    <-> Forall (fun c => Tokenizer.isWhiteSpace c = true) (Notions.chars text).
Proof.
  intros text.
  assert (Hblank : filter Notions.visible (Notions.chars text) = []
                   <-> Forall (fun c => Tokenizer.isWhiteSpace c = true)
                              (Notions.chars text)).
  { induction (Notions.chars text) as [|c l IH]; cbn.
    - split; auto.
    - unfold Notions.visible at 1.
      destruct (Tokenizer.isWhiteSpace c) eqn:Hc; cbn.
      + rewrite IH. split; [auto | intros H; inversion H; auto].
      + split; [discriminate | intros H; inversion H; congruence]. }
  rewrite <- Hblank, <- simpleTokenize_chars. split.
  - intros ->. reflexivity.
  - destruct (AttentionViewerTsx.simpleTokenize text) as [|token rest] eqn:E;
      [reflexivity|].
    destruct (simpleTokenize_tokens text token) as [_ Hne].
    { rewrite E. left. reflexivity. }
    cbn. destruct token; [congruence | discriminate].
Qed.

(** ** The selectors of the attention viewer *)

Section SelectorFacts.
Import Js AttentionViewerTsx Selecting.

Lemma is_option_indices (n : nat) (value : Z) :
  is_option (indices n) value = true <-> (0 <= value < Z.of_nat n)%Z.
Proof.
  unfold is_option, indices. rewrite existsb_exists. split.
  - intros (i & Hi & Heq). apply in_seq in Hi. apply Z.eqb_eq in Heq. lia.
  - intros Hv. exists (Z.to_nat value). split.
    + apply in_seq. lia.
    + apply Z.eqb_eq. lia.
Qed.

Lemma selectable_handle props st ev :
  selectable props st -> offered props st ev = true ->
  selectable props (handle st ev).
Proof.
  intros [Hlayer Hhead] Hoff. destruct ev as [value|value]; cbn in *.
  - apply is_option_indices in Hoff. split; cbn; auto.
  - apply is_option_indices in Hoff. split; cbn; [exact Hlayer|].
    right. exact Hoff.
Qed.

Lemma selectable_run props trace :
  forall st, selectable props st -> all_offered props st trace = true ->
             selectable props (run trace st).
Proof.
  induction trace as [|ev trace IH]; intros st Hsel Hall; [exact Hsel|].
  cbn [all_offered] in Hall. apply andb_true_iff in Hall.
  destruct Hall as [Hev Hrest]. cbn [run fold_left].
  apply IH; [apply selectable_handle; assumption | exact Hrest].
Qed.

Lemma selectable_matrix props st :
  selectable props st ->
  exists heads,
    index (attentionData props) (selectedLayer st) = Some heads
    /\ (heads = [] \/ exists m, currentAttentionMatrix props st = Some m).
Proof.
  intros [Hlayer Hhead].
  destruct (index_in_range (attentionData props) (selectedLayer st) Hlayer)
    as [heads Hheads].
  exists heads. split; [exact Hheads|].
  unfold currentAttentionMatrix, numHeads in *. rewrite Hheads in *.
  cbn [opt_index opt_length option_map] in *.
  destruct heads as [|m heads]; [left; reflexivity | right].
  apply index_in_range. destruct Hhead as [-> | Hhead]; [cbn; lia | exact Hhead].
Qed.

End SelectorFacts.

(** X5.  The selectors offer valid indices only.  From the initial
    selection, after any sequence of layer and head changes that each
    choose an option rendered at that moment, the selected layer is a
    layer of the tensor and, unless that layer has no head, the selection
    designates one of its matrices. *)
Theorem selectors_keep_selection_valid :
  forall (props : AttentionViewerTsx.AttentionViewerProps)
         (trace : list Selecting.Event),
    AttentionViewerTsx.attentionData props <> [] ->
    Selecting.all_offered props AttentionViewerTsx.initialState trace = true ->
    exists heads,
      Js.index (AttentionViewerTsx.attentionData props)
               (AttentionViewerTsx.selectedLayer
                  (Selecting.run trace AttentionViewerTsx.initialState))
      = Some heads
      /\ (heads = []
          \/ exists m,
               AttentionViewerTsx.currentAttentionMatrix props
                 (Selecting.run trace AttentionViewerTsx.initialState)
               = Some m).
Proof.
  intros props trace Hdata Hall.
  apply selectable_matrix, selectable_run; [|exact Hall].
  split; [|left; reflexivity].
  unfold AttentionViewerTsx.numLayers. cbn.
  destruct (AttentionViewerTsx.attentionData props); [congruence | cbn; lia].
Qed.

Lemma selectors_keep_selection_valid_witness :
  exists m,
    AttentionViewerTsx.currentAttentionMatrix Samples.two_by_two
      (Selecting.run [Selecting.LayerChange 1; Selecting.HeadChange 1]
                     AttentionViewerTsx.initialState)
    = Some m.
Proof.
  destruct (selectors_keep_selection_valid Samples.two_by_two
              [Selecting.LayerChange 1; Selecting.HeadChange 1])
    as (heads & Hheads & [Hnone | Hm]).
  - discriminate.
  - reflexivity.
  - exists [[3 / 4; 1 / 4]; [1 / 2; 1 / 2]]%R. reflexivity.
  - exact Hm.
Defined.

(** ** When the attention viewer returns *)

Section ViewerCompletionFacts.
Import Js AttentionViewerTsx.

(** With no matrix selected the component renders the selectors and the
    placeholder. *)
Lemma AttentionViewer_no_matrix engine props st :
  attentionData props <> [] ->
  currentAttentionMatrix props st = None ->
  snd (AttentionViewer engine props st)
  = Normal (Viewer (indices (numLayers props)) (indices (numHeads props st))
                   true None).
Proof.
  intros Hdata Hcam. unfold AttentionViewer.
  destruct (attentionData props) as [|l ls] eqn:E; [congruence|].
  cbn [List.length Nat.eqb]. rewrite Hcam. reflexivity.
Qed.

(** With a matrix selected and no token to show, it renders them too,
    once the two spreads have returned. *)
Lemma AttentionViewer_no_token engine props st m :
  currentAttentionMatrix props st = Some m ->
  simpleTokenize (promptText props) = [] ->
  snd (AttentionViewer engine props st)
  = if maxArguments engine <? List.length (flat m)
    then Throw (RangeError "Maximum call stack size exceeded")
    else Normal (Viewer (indices (numLayers props))
                        (indices (numHeads props st)) true None).
Proof.
  intros Hcam Htok. unfold AttentionViewer.
  rewrite (currentAttentionMatrix_nonempty _ _ _ Hcam), Hcam, Htok.
  rewrite scoreBounds_some. cbn [snd].
  destruct (maxArguments engine <? List.length (flat m)); reflexivity.
Qed.

End ViewerCompletionFacts.

(** X6.  The attention viewer returns in three cases only: the tensor is
    empty, the selection designates no matrix, or the prompt has no
    display token (and the matrix has no more entries than a call takes
    arguments).  In none of them does it return a table: with a matrix
    selected and a token to show, the render throws. *)
Theorem AttentionViewer_returns_without_table :
  forall (engine : Js.Engine)
         (props : AttentionViewerTsx.AttentionViewerProps)
         (st : AttentionViewerTsx.State),
    (Js.isNormal (snd (AttentionViewerTsx.AttentionViewer engine props st))
     = true
     <-> (AttentionViewerTsx.attentionData props = []
          \/ AttentionViewerTsx.currentAttentionMatrix props st = None
          \/ exists m,
               AttentionViewerTsx.currentAttentionMatrix props st = Some m
               /\ AttentionViewerTsx.simpleTokenize
                    (AttentionViewerTsx.promptText props) = []
               /\ List.length (Js.flat m) <= Js.maxArguments engine))
    /\ forall layerOptions headOptions placeholder table,
         snd (AttentionViewerTsx.AttentionViewer engine props st)
         = Js.Normal (AttentionViewerTsx.Viewer layerOptions headOptions
                                                placeholder table) ->
         table = None.
Proof.
  intros engine props st.
  destruct (AttentionViewerTsx.attentionData props) as [|l ls] eqn:Hdata.
  { unfold AttentionViewerTsx.AttentionViewer. rewrite Hdata. cbn. split.
    - split; [intros _; left; reflexivity | reflexivity].
    - discriminate. }
  assert (Hne : AttentionViewerTsx.attentionData props <> [])
    by (rewrite Hdata; discriminate).
  destruct (AttentionViewerTsx.currentAttentionMatrix props st) as [m|] eqn:Hcam.
  - destruct (AttentionViewerTsx.simpleTokenize
                (AttentionViewerTsx.promptText props)) as [|t ts] eqn:Htok.
    + rewrite (AttentionViewer_no_token engine props st m Hcam Htok).
      destruct (Js.maxArguments engine <? List.length (Js.flat m)) eqn:Hfit.
      * apply Nat.ltb_lt in Hfit. cbn [Js.isNormal]. split; [|discriminate].
        split; [discriminate|].
        intros [H|[H|(m' & Hm' & _ & Hle)]]; try discriminate.
        injection Hm' as <-. lia.
      * apply Nat.ltb_ge in Hfit. cbn [Js.isNormal]. split.
        -- split; [|reflexivity]. intros _. right. right.
           exists m. repeat split; assumption.
        -- intros lo ho ph table [= _ _ _ <-]. reflexivity.
    + rewrite (AttentionViewer_throws engine props st m Hcam)
        by (rewrite Htok; cbn; lia).
      cbn [snd Js.isNormal]. split; [|discriminate].
      split; [discriminate|].
      intros [H|[H|(m' & _ & H & _)]]; discriminate.
  - rewrite (AttentionViewer_no_matrix engine props st Hne Hcam).
    cbn [Js.isNormal]. split.
    + split; [|reflexivity]. intros _. right. left. reflexivity.
    + intros lo ho ph table [= _ _ _ <-]. reflexivity.
Qed.

(** X6 on a selection past the last layer: the component returns, with
    no table. *)
Lemma AttentionViewer_returns_without_table_witness :
  Js.isNormal
    (snd (AttentionViewerTsx.AttentionViewer Samples.engine Samples.sharp
            Samples.past_last_layer))
  = true.
Proof.
  apply (proj1 (AttentionViewer_returns_without_table
                  Samples.engine Samples.sharp Samples.past_last_layer)).
  right. left. reflexivity.
Defined.

(** X25.  A matrix with more entries than a call takes arguments stops
    the render at line 63: [Math.min(...currentAttentionMatrix.flat())]
    throws a [RangeError], whatever the prompt. *)
Theorem large_matrix_throws_RangeError :
  forall (engine : Js.Engine)
         (props : AttentionViewerTsx.AttentionViewerProps)
         (st : AttentionViewerTsx.State)
         (m : AttentionViewerTsx.Matrix),
    AttentionViewerTsx.currentAttentionMatrix props st = Some m ->
    Js.maxArguments engine < List.length (Js.flat m) ->
    snd (AttentionViewerTsx.AttentionViewer engine props st)
    = Js.Throw (Js.RangeError "Maximum call stack size exceeded").
Proof.
  intros engine props st m Hcam Hbig.
  apply Nat.ltb_lt in Hbig.
  destruct (AttentionViewerTsx.simpleTokenize
              (AttentionViewerTsx.promptText props)) as [|t ts] eqn:Htok.
  - rewrite (AttentionViewer_no_token engine props st m Hcam Htok), Hbig.
    reflexivity.
  - rewrite (AttentionViewer_throws engine props st m Hcam)
      by (rewrite Htok; cbn; lia).
    cbn [snd]. rewrite Hbig. reflexivity.
Qed.

(** X25 on a matrix of 256 rows of 256 entries, for an engine that takes
    65535 arguments. *)
Lemma large_matrix_throws_RangeError_witness :
  snd (AttentionViewerTsx.AttentionViewer Samples.engine Samples.wide
         AttentionViewerTsx.initialState)
  = Js.Throw (Js.RangeError "Maximum call stack size exceeded").
Proof.
  apply (large_matrix_throws_RangeError Samples.engine Samples.wide
           AttentionViewerTsx.initialState
           (repeat (repeat 0%R 256) 256)).
  - reflexivity.
  - apply Nat.ltb_lt. vm_compute. reflexivity.
Defined.

(** X9.  Between two distinct bounds [getNormalizedScore] keeps the order
    of the scores: a higher score never gets a lower intensity. *)
Theorem normalisation_keeps_order :
  forall lo hi a b : R,
    (lo < hi)%R -> (a <= b)%R ->
    exists na nb : R,
      AttentionViewerTsx.getNormalizedScore (Js.Num a) (Js.Num lo) (Js.Num hi)
      = Js.Num na
      /\ AttentionViewerTsx.getNormalizedScore (Js.Num b) (Js.Num lo) (Js.Num hi)
         = Js.Num nb
      /\ (na <= nb)%R.
Proof.
  intros lo hi a b Hlt Hab.
  exists ((a - lo) / (hi - lo))%R, ((b - lo) / (hi - lo))%R.
  rewrite !getNormalizedScore_between by exact Hlt.
  split; [reflexivity|]. split; [reflexivity|].
  unfold Rdiv. apply Rmult_le_compat_r; [|lra].
  left. apply Rinv_0_lt_compat. lra.
Qed.

Lemma normalisation_keeps_order_witness :
  exists na nb : R,
    AttentionViewerTsx.getNormalizedScore (Js.Num (1 / 4)) (Js.Num 0) (Js.Num 1)
    = Js.Num na
    /\ AttentionViewerTsx.getNormalizedScore (Js.Num (3 / 4)) (Js.Num 0) (Js.Num 1)
       = Js.Num nb
    /\ (na <= nb)%R.
Proof.
  apply (normalisation_keeps_order 0 1 (1 / 4) (3 / 4))%R; lra.
Defined.

(** ** Blocks of the hidden-state explorer *)

Section ExplorerFacts.
Import Js HiddenStateExplorerTsx Notions.

(** The trajectory is empty when no layer has the token, and only
    then. *)
Lemma trajectory_from_empty (t : Z) (data : list (list (list R))) :
  forall s : nat,
    (trajectory_from t s data = []
     /\ Forall (fun layerData => index layerData t = None) data)
    \/ (trajectory_from t s data <> []
        /\ Exists (fun layerData => index layerData t <> None) data).
Proof.
  induction data as [|layerData rest IH]; intros s.
  - left. split; [reflexivity | constructor].
  - cbn [trajectory_from]. destruct (index layerData t) as [vector|] eqn:Hv.
    + right. split; [discriminate|]. left. congruence.
    + cbn [app]. destruct (IH (S s)) as [[Hnil Hall] | [Hne Hex]].
      * left. split; [exact Hnil | constructor; assumption].
      * right. split; [exact Hne | right; exact Hex].
Qed.


End ExplorerFacts.





(** ** The scales of the chart *)

Section ScaleFacts.
Import Js HiddenStateExplorerTsx Notions.
Local Open Scope R_scope.

(** [getX] and [getY] on finite arguments, as real expressions. *)
Lemma getX_value (numLayers L : nat) :
  getX numLayers (of_nat L)
  = Num (50 + INR L / Rmax 1 (INR numLayers - 1) * (500 - 2 * 50)).
Proof.
  unfold getX, chartWidth, svgWidth, padding, of_nat.
  rewrite !mul_Num, !sub_Num, Math_max_pair.
  pose proof (Rmax_l 1 (INR numLayers - 1)).
  rewrite div_Num by lra. now rewrite mul_Num, add_Num.
Qed.

Lemma getY_value (a b x : R) :
  getY (Num a) (Num b) (Num x)
  = Num (50 + (300 - 2 * 50) - (x - a) / Rmax 1 (b - a) * (300 - 2 * 50)).
Proof.
  unfold getY, chartHeight, svgHeight, padding.
  rewrite !mul_Num, !sub_Num, Math_max_pair.
  pose proof (Rmax_l 1 (b - a)).
  rewrite div_Num by lra. now rewrite mul_Num, add_Num, sub_Num.
Qed.

Lemma div_lt_guarded (u v w : R) : u < v -> u / Rmax 1 w < v / Rmax 1 w.
Proof.
  intros Huv. pose proof (Rmax_l 1 w). unfold Rdiv.
  apply Rmult_lt_compat_r; [apply Rinv_0_lt_compat; lra | exact Huv].
Qed.


Lemma sorted_nth (l : list nat) :
  StronglySorted lt l ->
  forall i j a b,
    (i < j)%nat -> nth_error l i = Some a -> nth_error l j = Some b ->
    (a < b)%nat.
Proof.
  induction 1 as [|x l Hsorted IH Hall]; intros i j a b Hij Ha Hb.
  - destruct i; discriminate.
  - destruct j as [|j]; [lia|]. cbn in Hb. destruct i as [|i].
    + cbn in Ha. injection Ha as <-.
      rewrite Forall_forall in Hall. apply Hall. eapply nth_error_In, Hb.
    + cbn in Ha. apply (IH i j); auto. lia.
Qed.

End ScaleFacts.

(** X13.  The data path runs from left to right.  Its first command, and
    only its first, is a move, also when it has a single point; and of
    two of its points the later one lies strictly further right. *)
Theorem path_runs_left_to_right :
  forall (data : list (list (list R))) (st : HiddenStateExplorerTsx.State),
    let chart :=
      HiddenStateExplorerTsx.renderChart
        (List.length data) (HiddenStateExplorerTsx.chartData data st) in
    (forall (i : nat) (ci : HiddenStateExplorerTsx.PathCommand)
            (xi yi : Js.number),
        nth_error (HiddenStateExplorerTsx.path chart) i = Some (ci, xi, yi) ->
        ci = if i =? 0 then HiddenStateExplorerTsx.MoveTo
             else HiddenStateExplorerTsx.LineTo)
    /\ forall (i j : nat) (ci cj : HiddenStateExplorerTsx.PathCommand)
              (xi yi xj yj : Js.number),
         nth_error (HiddenStateExplorerTsx.path chart) i = Some (ci, xi, yi) ->
         nth_error (HiddenStateExplorerTsx.path chart) j = Some (cj, xj, yj) ->
         i < j ->
         exists pi pj : R,
           xi = Js.Num pi /\ xj = Js.Num pj /\ (pi < pj)%R.
Proof.
  intros data st chart. subst chart. split.
  - intros i ci xi yi Hi.
    cbn [HiddenStateExplorerTsx.path HiddenStateExplorerTsx.renderChart] in Hi.
    rewrite mapi_nth in Hi.
    destruct (nth_error (HiddenStateExplorerTsx.chartData data st) i)
      as [di|]; [|discriminate].
    cbn [option_map] in Hi. injection Hi as <- _ _. reflexivity.
  - intros i j ci cj xi yi xj yj Hi Hj Hij.
    cbn [HiddenStateExplorerTsx.path HiddenStateExplorerTsx.renderChart]
      in Hi, Hj.
    rewrite mapi_nth in Hi, Hj.
    destruct (nth_error (HiddenStateExplorerTsx.chartData data st) i)
      as [di|] eqn:Hdi; [|discriminate].
    destruct (nth_error (HiddenStateExplorerTsx.chartData data st) j)
      as [dj|] eqn:Hdj; [|discriminate].
    cbn [option_map] in Hi, Hj.
    injection Hi as _ <- _. injection Hj as _ <- _.
    assert (Hlayers : HiddenStateExplorerTsx.layer di
                      < HiddenStateExplorerTsx.layer dj).
    { destruct st as [t|]; [|destruct i; discriminate].
      rewrite chartData_trajectory in Hdi, Hdj.
      apply (sorted_nth _ (proj1 (trajectory_from_sorted t data 0)) i j); auto.
      - now rewrite nth_error_map, Hdi.
      - now rewrite nth_error_map, Hdj. }
    rewrite !getX_value. eexists _, _.
    split; [reflexivity|]. split; [reflexivity|].
    apply lt_INR in Hlayers.
    pose proof (div_lt_guarded _ _ (INR (List.length data) - 1) Hlayers).
    nra.
Qed.

(** X13 on the one-point path of a single layer: its command is a
    move. *)
Lemma path_runs_left_to_right_witness :
  exists x y : Js.number,
    nth_error
      (HiddenStateExplorerTsx.path
         (HiddenStateExplorerTsx.renderChart 1
            (HiddenStateExplorerTsx.chartData [[[3; 4]]]%R (Some 0%Z))))
      0
    = Some (HiddenStateExplorerTsx.MoveTo, x, y).
Proof.
  destruct (nth_error
              (HiddenStateExplorerTsx.path
                 (HiddenStateExplorerTsx.renderChart 1
                    (HiddenStateExplorerTsx.chartData [[[3; 4]]]%R
                                                      (Some 0%Z))))
              0) as [[[c x] y]|] eqn:E.
  - exists x, y.
    rewrite (proj1 (path_runs_left_to_right [[[3; 4]]]%R (Some 0%Z))
                   0 c x y E).
    reflexivity.
  - discriminate E.
Defined.



(** X15.  How far the value scale stretches.  When the norms span at
    least 1, the least norm is drawn on the baseline ([y = 250]) and the
    greatest at the top ([y = 50]).  When they span less than 1 the
    divisor is 1: a norm [x] is drawn [200 * (x - min)] above the
    baseline, so the series uses only a part of the height. *)
Theorem getY_stretch :
  forall a b : R,
    ((1 <= b - a)%R ->
     HiddenStateExplorerTsx.getY (Js.Num a) (Js.Num b) (Js.Num a) = Js.Num 250
     /\ HiddenStateExplorerTsx.getY (Js.Num a) (Js.Num b) (Js.Num b) = Js.Num 50)
    /\ ((b - a <= 1)%R ->
        forall x : R,
          HiddenStateExplorerTsx.getY (Js.Num a) (Js.Num b) (Js.Num x)
          = Js.Num (250 - 200 * (x - a))).
Proof.
  intros a b. split.
  - intros Hwide. rewrite !getY_value, Rmax_right by lra.
    split; f_equal; field; lra.
  - intros Hnarrow x. rewrite getY_value, Rmax_left by lra.
    f_equal. field.
Qed.

Lemma getY_stretch_witness :
  HiddenStateExplorerTsx.getY (Js.Num 1) (Js.Num 5) (Js.Num 5) = Js.Num 50
  /\ HiddenStateExplorerTsx.getY (Js.Num 1) (Js.Num (3 / 2)) (Js.Num (3 / 2))
     = Js.Num (250 - 200 * (3 / 2 - 1)).
Proof.
  split.
  - apply (proj1 (getY_stretch 1 5)). lra.
  - apply (proj2 (getY_stretch 1 (3 / 2))). lra.
Defined.

(** X17.  The ends of the layer axis: layer 0 is drawn at [x = 50], with
    two layers or more the last layer is drawn at [x = 450], and every
    layer of the tensor lies between the two. *)
Theorem layer_axis_ends :
  forall numLayers : nat,
    HiddenStateExplorerTsx.getX numLayers (Js.of_nat 0) = Js.Num 50
    /\ (2 <= numLayers ->
        HiddenStateExplorerTsx.getX numLayers (Js.of_nat (numLayers - 1))
        = Js.Num 450)
    /\ forall L : nat,
         L < numLayers ->
         exists x : R,
           HiddenStateExplorerTsx.getX numLayers (Js.of_nat L) = Js.Num x
           /\ (50 <= x <= 450)%R.
Proof.
  intros numLayers. split; [|split].
  - rewrite getX_value. cbn [INR]. f_equal. unfold Rdiv. lra.
  - intros Hn.
    assert (Hreal : (1 <= INR numLayers - 1)%R).
    { apply le_INR in Hn. cbn [INR] in Hn. lra. }
    rewrite getX_value, Rmax_right by exact Hreal.
    rewrite minus_INR by lia. cbn [INR]. f_equal. field. lra.
  - intros L HL.
    destruct (getX_in_viewport numLayers L HL)
      as (x & dx & _ & _ & Hx & Hrange & _).
    exists x. split; [exact Hx | exact Hrange].
Qed.

(** X17 on three layers. *)
Lemma layer_axis_ends_witness :
  HiddenStateExplorerTsx.getX 3 (Js.of_nat 0) = Js.Num 50
  /\ HiddenStateExplorerTsx.getX 3 (Js.of_nat 2) = Js.Num 450.
Proof.
  split.
  - apply (proj1 (layer_axis_ends 3)).
  - apply (proj1 (proj2 (layer_axis_ends 3))). lia.
Defined.

(** ** Errors and blocks of the page *)

Section PageErrorFacts.
Import Js PageTsx HomeTsx PageEvents Notions.

Lemma or_else_nonempty (a : option string) (b : string) :
  b <> EmptyString -> or_else a b <> EmptyString.
Proof.
  intros Hb. unfold or_else. destruct a as [s|]; [|exact Hb].
  destruct (Tokenizer.falsy s) eqn:E; [exact Hb|].
  intros ->. discriminate.
Qed.

(** Whatever happens, a loading page holds no error and no result. *)
Lemma step_loading_is_clean (w : World) (ev : Event) :
  loading_is_clean (page w) -> loading_is_clean (page (step w ev)).
Proof.
  intros Hclean. destruct ev as [|id o]; cbn [step].
  - destruct (mounted w); [|exact Hclean]. intros _. split; reflexivity.
  - destruct (is_inflight id w); [|exact Hclean]. cbn [page].
    destruct (mounted w); [|exact Hclean].
    intros Hload.
    rewrite (proj2 (handleSubmit_resume_results o (page w))) in Hload.
    discriminate.
Qed.

Lemma run_loading_is_clean (trace : list Event) :
  forall w, loading_is_clean (page w) -> loading_is_clean (page (run trace w)).
Proof.
  induction trace as [|ev trace IH]; intros w Hclean; [exact Hclean|].
  cbn [run fold_left]. apply IH, step_loading_is_clean, Hclean.
Qed.

(** The render of the page by the blocks its state selects. *)
Lemma Home_cases (st : State) :
  loading_is_clean st ->
  match Home st with
  | Normal section =>
      section = resultsSection st
      /\ blocksShown section = 1 /\ analysis section = None
  | Throw e =>
      e = ReferenceError "activeTab is not defined"
      /\ isLoading st = false /\ errorShown st = None
      /\ exists data, results st = Some data
  end.
Proof.
  intros Hclean. unfold Home, resultsSection, blocksShown, loading_is_clean in *.
  cbn [analyzing alert analysis placeholder].
  destruct (isLoading st).
  - destruct (Hclean eq_refl) as [Herr Hres].
    unfold errorShown. rewrite Herr, Hres. cbn. auto.
  - destruct (errorShown st) as [message|]; cbn.
    + destruct (results st); cbn; auto.
    + destruct (results st) as [data|]; cbn; [|auto].
      repeat split. exists data. reflexivity.
Qed.

End PageErrorFacts.

(** X20.  A request that does not deliver data leaves the page with a
    message to show: the error is set to a text that is not empty, the
    result set is cleared and the page stops loading. *)
Theorem failed_request_shows_message :
  forall (o : PageTsx.FetchOutcome) (st : PageTsx.State),
    PageTsx.dataOf o = None ->
    exists message : string,
      PageTsx.error (PageTsx.handleSubmit_resume o st) = Some message
      /\ message <> EmptyString
      /\ HomeTsx.alert (HomeTsx.resultsSection (PageTsx.handleSubmit_resume o st))
         = Some message
      /\ PageTsx.results (PageTsx.handleSubmit_resume o st) = None
      /\ PageTsx.isLoading (PageTsx.handleSubmit_resume o st) = false.
Proof.
  intros o st. unfold PageTsx.dataOf, PageTsx.handleSubmit_resume.
  destruct (PageTsx.handleSubmit_try o) as [data|e]; [discriminate|].
  intros _. eexists. split; [reflexivity|].
  assert (Hne : PageTsx.or_else (Some (Js.message_of e))
                  "Failed to fetch analysis. Ensure the backend server is running."
                <> EmptyString)
    by (apply or_else_nonempty; discriminate).
  split; [exact Hne|]. split; [|split; reflexivity].
  unfold HomeTsx.resultsSection, HomeTsx.errorShown.
  cbn [HomeTsx.alert PageTsx.error].
  destruct (PageTsx.or_else (Some (Js.message_of e))
              "Failed to fetch analysis. Ensure the backend server is running.");
    [congruence | reflexivity].
Qed.

Lemma failed_request_shows_message_witness :
  exists message : string,
    PageTsx.error
      (PageTsx.handleSubmit_resume
         (PageTsx.Rejected (Js.TypeError "Failed to fetch"))
         PageTsx.initialState)
    = Some message
    /\ message <> EmptyString.
Proof.
  destruct (failed_request_shows_message
              (PageTsx.Rejected (Js.TypeError "Failed to fetch"))
              PageTsx.initialState)
    as (message & Herr & Hne & _).
  - reflexivity.
  - exists message. auto.
Defined.

(** X21.  The message shown for a response that is not ok and whose body
    parses.  The [detail] of the body, whatever JSON value it is, is only
    tested and handed to [new Error]: a truthy [detail] is shown as the
    string it converts to, and when that string is empty (the array
    [[]]) the generic text of the [catch] is shown; with no [detail], or
    a falsy one, the line [HTTP error! status: <status> <statusText>] is
    shown; and on the body [null], the message of the [TypeError] that
    reading [detail] throws. *)
Theorem http_error_message_by_detail :
  forall (status statusText : string) (body : PageTsx.ErrorBody)
         (st : PageTsx.State),
    PageTsx.error
      (PageTsx.handleSubmit_resume
         (PageTsx.Fulfilled
            (PageTsx.ErrorResponse status statusText (Js.Normal body)))
         st)
    = Some match body with
           | PageTsx.NullBody =>
               "Cannot read properties of null (reading 'detail')"%string
           | PageTsx.Body (PageTsx.Truthy text) =>
               if Tokenizer.falsy text
               then "Failed to fetch analysis. Ensure the backend server is running."%string
               else text
           | PageTsx.Body _ =>
               ("HTTP error! status: " ++ status ++ " " ++ statusText)%string
           end.
Proof.
  intros status statusText body st.
  unfold PageTsx.handleSubmit_resume.
  destruct body as [|[| |text]];
    cbn [PageTsx.handleSubmit_try PageTsx.error Js.message_of];
    try reflexivity.
Qed.

(** X22.  After any sequence of submits and settled requests, gated or
    not, the render of the page has one of two outcomes.  When its state
    selects the analysis block (a result set, no error, not loading) the
    render throws at line 129, [activeTab] being declared nowhere.
    Otherwise it returns with exactly one of the loading notice, the
    error banner and the placeholder. *)
Theorem results_section_renders_one_block_or_throws :
  forall trace : list PageEvents.Event,
    let st := PageEvents.page (PageEvents.run trace PageEvents.initialWorld) in
    match HomeTsx.Home st with
    | Js.Normal section =>
        section = HomeTsx.resultsSection st
        /\ HomeTsx.blocksShown section = 1
        /\ HomeTsx.analysis section = None
    | Js.Throw e =>
        e = Js.ReferenceError "activeTab is not defined"
        /\ PageTsx.isLoading st = false
        /\ HomeTsx.errorShown st = None
        /\ exists data, PageTsx.results st = Some data
    end.
Proof.
  intros trace st. apply Home_cases. subst st.
  apply run_loading_is_clean. intros H. discriminate.
Qed.

(** X24.  The token selector offers every display token.  Choosing one
    whose index lies past the token axis of every layer does not fail:
    the explorer logs the mismatch of the token count with the first
    layer and renders the notice that no data is available in place of
    the chart. *)
Theorem token_past_tensor_renders_notice :
  forall (props : HiddenStateExplorerTsx.HiddenStateExplorerProps)
         (st : HiddenStateExplorerTsx.State) (t : nat)
         (layer0 : list (list R)) (rest : list (list (list R))),
    let tokens :=
      HiddenStateExplorerTsx.simpleTokenize
        (HiddenStateExplorerTsx.promptText props) in
    HiddenStateExplorerTsx.hiddenStateData props = layer0 :: rest ->
    Forall (fun layerData => List.length layerData <= t) (layer0 :: rest) ->
    t < List.length tokens ->
    HiddenStateExplorerTsx.HiddenStateExplorer props
      (HiddenStateExplorerTsx.handleTokenChange (Z.of_nat t) st)
    = Js.Normal
        (HiddenStateExplorerTsx.Explorer
           (Js.mapi (fun token idx => (token, idx)) tokens)
           false None true,
         [ {| HiddenStateExplorerTsx.warnTokenCount := List.length tokens;
              HiddenStateExplorerTsx.warnTokenDimension := List.length layer0 |} ]).
Proof.
  intros props st t layer0 rest tokens Hdata Hshort Ht.
  unfold HiddenStateExplorerTsx.HiddenStateExplorer,
    HiddenStateExplorerTsx.handleTokenChange.
  fold tokens. rewrite Hdata.
  cbn [List.length Nat.eqb Js.index Z.ltb Z.compare Z.to_nat nth_error].
  assert (Hcd : HiddenStateExplorerTsx.chartData (layer0 :: rest)
                  (Some (Z.of_nat t)) = []).
  { rewrite chartData_trajectory.
    destruct (trajectory_from_empty (Z.of_nat t) (layer0 :: rest) 0)
      as [[Hnil _] | [_ Hex]]; [exact Hnil|].
    apply Exists_exists in Hex. destruct Hex as (layerData & Hin & Hsome).
    rewrite Forall_forall in Hshort. specialize (Hshort layerData Hin).
    exfalso. apply Hsome, index_None. lia. }
  assert (Hpos : (0 <? List.length tokens) = true) by (apply Nat.ltb_lt; lia).
  assert (Hdiff : (List.length tokens =? List.length layer0) = false).
  { apply Nat.eqb_neq. inversion Hshort; subst. lia. }
  rewrite Hcd, Hpos, Hdiff. reflexivity.
Qed.

Lemma token_past_tensor_renders_notice_witness :
  Js.isNormal
    (HiddenStateExplorerTsx.HiddenStateExplorer Samples.three_on_two_states
       (HiddenStateExplorerTsx.handleTokenChange 2 (Some 0%Z)))
  = true.
Proof.
  change (HiddenStateExplorerTsx.handleTokenChange 2 (Some 0%Z))
    with (HiddenStateExplorerTsx.handleTokenChange (Z.of_nat 2) (Some 0%Z)).
  rewrite (token_past_tensor_renders_notice Samples.three_on_two_states
             (Some 0%Z) 2 [[1; 0]; [0; 1]]%R [ [[3; 4]; [4; 3]]%R ]).
  - reflexivity.
  - reflexivity.
  - repeat constructor.
  - vm_compute. lia.
Defined.
